(** * echoserver: a line-delimited JSON-RPC 2.0 server exposing two tools

    Shallow embedding of [echoserver.py] (class [EchoserverMCP] and the
    session loop [main]) and the properties of its dispatch core.

    Layout:
    - [Py]: the fragment of the Python data model the program touches
      (decoded JSON values, insertion-ordered dicts, truthiness, [str],
      exceptions and their messages, [str.strip], [readline]);
    - [Eff]: the effect monad of a coroutine of the program: it may raise
      and it may issue outbound GET requests, which are logged;
    - [Server]: the program itself, definition by definition;
    - [SampleRuntime]: one concrete runtime (a JSON codec for the ASCII,
      float-free fragment and scripted HTTP peers) on which the general
      theorems are exercised;
    - [Props], [Transcript]: the vocabulary of the properties and the
      sample traffic;
    - [Dispatcher], [Session]: the properties, for every runtime and every
      behaviour of the remote service;
    - [Runs]: the server run on the sample traffic. *)

From Stdlib Require Import String Ascii List ZArith Bool Lia.
From Stdlib Require Import SpecFloat DecimalString.
Import ListNotations.

Set Warnings "-register-all".

Local Open Scope string_scope.
Local Open Scope Z_scope.

(* ================================================================== *)
(** ** Python values *)

Module Py.

(** A value produced by [json.loads]: [None], [bool], [int] (unbounded),
    [float] (binary64), [str], [list], [dict].  A dict keeps its keys in
    insertion order, which [list(d.values())] and [json.dumps] expose, so
    it is an association list.  Python dicts never hold a key twice; the
    lookups below return the first binding and no theorem needs more. *)
Inductive json : Type :=
| JNull
| JBool (b : bool)
| JInt (z : Z)
| JFloat (f : spec_float)
| JStr (s : string)
| JArr (items : list json)
| JObj (fields : list (string * json)).

Definition dict : Type := list (string * json).

(** [key in d] / the binding of [key] in [d]. *)
Fixpoint lookup (d : dict) (key : string) : option json :=
  match d with
  | [] => None
  | (k, v) :: rest => if String.eqb k key then Some v else lookup rest key
  end.

(** [type(v).__name__] *)
Definition type_name (v : json) : string :=
  match v with
  | JNull => "NoneType"
  | JBool _ => "bool"
  | JInt _ => "int"
  | JFloat _ => "float"
  | JStr _ => "str"
  | JArr _ => "list"
  | JObj _ => "dict"
  end.

(** [bool(v)]: the test behind [if not v]. *)
Definition truthy (v : json) : bool :=
  match v with
  | JNull => false
  | JBool b => b
  | JInt z => negb (z =? 0)
  | JFloat (S754_zero _) => false
  | JFloat _ => true
  | JStr s => negb (String.eqb s "")
  | JArr items => match items with [] => false | _ => true end
  | JObj fields => match fields with [] => false | _ => true end
  end.

(** [v == literal] for a string literal on the right: only a [str] with the
    same characters is equal to it. *)
Definition eq_str (v : json) (literal : string) : bool :=
  match v with
  | JStr s => String.eqb s literal
  | _ => false
  end.

(** Exceptions the program can meet; all derive from [Exception].  The
    first three are raised by the interpreter on the program's own
    expressions.  [LibraryError] stands for one raised inside [httpx] or
    [json] (connection failure, timeout, bad status, undecodable body), with
    its class name and the message the library gave it. *)
Inductive exn : Type :=
| AttributeError (tyname attr : string)
| KeyError (key_repr : string)
| TypeError (msg : string)
| LibraryError (class_name msg : string).

(** How a call ends. *)
Inductive outcome (A : Type) : Type :=
| Returned (a : A)
| Raised (e : exn).
Arguments Returned {A} a.
Arguments Raised {A} e.

(** [str(int)] *)
Definition str_int (z : Z) : string := NilZero.string_of_int (Z.to_int z).

Definition join (sep : string) (parts : list string) : string :=
  match parts with
  | [] => ""
  | p :: ps => fold_left (fun acc q => acc ++ sep ++ q) ps p
  end.

(** What the interpreter and its standard library provide and the program
    only calls: the [repr] of a [str] and of a [float], and the JSON codec.
    [json_loads] ends with [Raised] where [json.loads] raises. *)
Class Runtime : Type := {
  repr_str : string -> string;
  repr_float : spec_float -> string;
  json_loads : string -> outcome json;
  json_dumps : json -> string
}.

Section WithRuntime.
Context {rt : Runtime}.

(** [repr(v)] *)
Fixpoint repr (v : json) : string :=
  match v with
  | JNull => "None"
  | JBool true => "True"
  | JBool false => "False"
  | JInt z => str_int z
  | JFloat f => repr_float f
  | JStr s => repr_str s
  | JArr items => "[" ++ join ", " (map repr items) ++ "]"
  | JObj fields =>
      "{" ++ join ", " (map (fun kv => repr_str (fst kv) ++ ": " ++ repr (snd kv)) fields) ++ "}"
  end.

(** [str(v)], also what an f-string field [{v}] formats to. *)
Definition str (v : json) : string :=
  match v with
  | JStr s => s
  | _ => repr v
  end.

(** [str(e)] for a caught exception (CPython 3.11 and later wording). *)
Definition str_exn (e : exn) : string :=
  match e with
  | AttributeError tyname attr =>
      "'" ++ tyname ++ "' object has no attribute '" ++ attr ++ "'"
  | KeyError key_repr => key_repr
  | TypeError msg => msg
  | LibraryError _ msg => msg
  end.

(** [v.get(key, default)]: a dict method; no other decoded value has an
    attribute [get]. *)
Definition get (v : json) (key : string) (default : json) : outcome json :=
  match v with
  | JObj fields =>
      Returned match lookup fields key with Some x => x | None => default end
  | _ => Raised (AttributeError (type_name v) "get")
  end.

(** [v[key]] for a [str] key. *)
Definition getitem (v : json) (key : string) : outcome json :=
  match v with
  | JObj fields =>
      match lookup fields key with
      | Some x => Returned x
      | None => Raised (KeyError (repr_str key))
      end
  | JArr _ => Raised (TypeError "list indices must be integers or slices, not str")
  | JStr _ => Raised (TypeError "string indices must be integers, not 'str'")
  | _ => Raised (TypeError ("'" ++ type_name v ++ "' object is not subscriptable"))
  end.

End WithRuntime.

(** Characters [str.strip()] removes, among the code points below 128. *)
Definition isspace (c : ascii) : bool :=
  let n := nat_of_ascii c in
  ((9 <=? n) && (n <=? 13) || (28 <=? n) && (n <=? 32))%nat.

Fixpoint lstrip (s : string) : string :=
  match s with
  | EmptyString => EmptyString
  | String c rest => if isspace c then lstrip rest else s
  end.

Fixpoint rstrip (s : string) : string :=
  match s with
  | EmptyString => EmptyString
  | String c rest =>
      match rstrip rest with
      | EmptyString => if isspace c then EmptyString else String c EmptyString
      | kept => String c kept
      end
  end.

(** [s.strip()] *)
Definition strip (s : string) : string := rstrip (lstrip s).

Definition newline : ascii := "010"%char.

(** [stream.readline()] on the unread text of a stream: the line up to and
    including its newline (or up to the end of the text), and what is left.
    The line is empty only at end of input. *)
Fixpoint readline (unread : string) : string * string :=
  match unread with
  | EmptyString => (EmptyString, EmptyString)
  | String c rest =>
      if Ascii.eqb c newline then (String c EmptyString, rest)
      else let (line, left) := readline rest in (String c line, left)
  end.

End Py.

(* ================================================================== *)
(** ** Effects: exceptions and outbound HTTP *)

Module Eff.
Import Py.

(** One call of [client.get(url, headers=..., timeout=...)], the timeout
    in seconds. *)
Record Request : Type := {
  req_url : string;
  req_headers : list (string * string);
  req_timeout : Z
}.

(** The [httpx.Response] as far as the program looks at it: the status
    code, the exception [raise_for_status()] raises when the status is not
    a success, and how [json()] ends (it raises on a malformed body). *)
Record Response : Type := {
  status_code : Z;
  status_error : exn;
  json_body : outcome json
}.

(** The remote side.  [client_get sent r] is how the GET [r] ends when the
    requests [sent] were issued before it: it raises (connection failure,
    timeout expiry) or returns a response. *)
Class Network : Type := {
  client_get : list Request -> Request -> outcome Response
}.

(** A computation runs against the log of requests issued so far, may
    extend it, and returns or raises. *)
Definition M (A : Type) : Type := list Request -> outcome A * list Request.

Definition ret {A} (a : A) : M A := fun sent => (Returned a, sent).

Definition raise {A} (e : exn) : M A := fun sent => (Raised e, sent).

Definition bind {A B} (c : M A) (k : A -> M B) : M B :=
  fun sent =>
    match c sent with
    | (Returned a, sent') => k a sent'
    | (Raised e, sent') => (Raised e, sent')
    end.

(** [try: body  except Exception as e: handler(e)] *)
Definition try_except {A} (body : M A) (handler : exn -> M A) : M A :=
  fun sent =>
    match body sent with
    | (Returned a, sent') => (Returned a, sent')
    | (Raised e, sent') => handler e sent'
    end.

(** An effect-free call. *)
Definition lift {A} (o : outcome A) : M A := fun sent => (o, sent).

Declare Scope eff_scope.
Delimit Scope eff_scope with eff.
Notation "x <- c ;; k" := (bind c (fun x => k))
  (at level 61, c at next level, right associativity) : eff_scope.
Notation "c ;;; k" := (bind c (fun _ => k))
  (at level 61, right associativity) : eff_scope.

(** [await client.get(url, headers=headers, timeout=t)] *)
Definition http_get {net : Network} (r : Request) : M Response :=
  fun sent => (client_get sent r, (sent ++ [r])%list).

(** [response.is_success] *)
Definition is_success (response : Response) : bool :=
  (200 <=? status_code response) && (status_code response <=? 299).

(** [response.raise_for_status()] *)
Definition raise_for_status (response : Response) : M unit :=
  if is_success response then ret tt else raise (status_error response).

(** [response.json()] *)
Definition response_json (response : Response) : M json :=
  lift (json_body response).

End Eff.

(* ================================================================== *)
(** ** The server *)

Module Server.
Import Py Eff.
Local Open Scope eff_scope.

Definition CHESSCOM_API_BASE : string := "https://api.chess.com".
Definition USER_AGENT : string := "chesscom-app/1.0".

(** [self.tools], built once in [__init__] and never written again. *)
Definition tools : dict :=
  [ ("echoserver",
     JObj [ ("name", JStr "echoserver");
            ("description", JStr "Reply to a message with its echo (the message itself)");
            ("inputSchema",
             JObj [ ("type", JStr "object");
                    ("properties",
                     JObj [ ("msg",
                             JObj [ ("type", JStr "string");
                                    ("description", JStr "Message to reply") ]) ]);
                    ("required", JArr [JStr "msg"]) ]) ]);
    ("chesscomProfileFollowers",
     JObj [ ("name", JStr "chesscomProfileFollowers");
            ("description", JStr "Get a chess.com player followers");
            ("inputSchema",
             JObj [ ("type", JStr "object");
                    ("properties",
                     JObj [ ("username",
                             JObj [ ("type", JStr "string");
                                    ("description", JStr "Chess.com username") ]) ]);
                    ("required", JArr [JStr "username"]) ]) ]) ].

(** [list(d.values())] *)
Definition values (d : dict) : list json := map snd d.

Definition create_response (request_id result : json) : json :=
  JObj [ ("jsonrpc", JStr "2.0");
         ("id", request_id);
         ("result", result) ].

Definition create_error_response (request_id : json) (code : Z) (message : string) : json :=
  JObj [ ("jsonrpc", JStr "2.0");
         ("id", request_id);
         ("error", JObj [ ("code", JInt code);
                          ("message", JStr message) ]) ].

Section WithWorld.
Context {rt : Runtime} {net : Network}.

Definition make_chess_request (url : string) : M json :=
  let headers := [ ("User-Agent", USER_AGENT);
                   ("Accept", "application/json") ] in
  try_except
    (response <- http_get {| req_url := url; req_headers := headers; req_timeout := 30 |} ;;
     raise_for_status response ;;;
     response_json response)
    (fun _ => ret JNull).

Definition handle_jsonrpc (request : json) : M json :=
  try_except
    (method <- lift (get request "method" JNull) ;;
     params <- lift (get request "params" (JObj [])) ;;
     request_id <- lift (get request "id" JNull) ;;
     if eq_str method "initialize" then
       ret (create_response request_id
              (JObj [ ("protocolVersion", JStr "2024-11-05");
                      ("capabilities", JObj [ ("tools", JObj []) ]);
                      ("serverInfo", JObj [ ("name", JStr "echoserver");
                                            ("version", JStr "1.0.0") ]) ]))
     else if eq_str method "tools/list" then
       ret (create_response request_id
              (JObj [ ("tools", JArr (values tools)) ]))
     else if eq_str method "tools/call" then
       tool_name <- lift (get params "name" JNull) ;;
       if eq_str tool_name "echoserver" then
         arguments <- lift (get params "arguments" JNull) ;;
         client_msg <- lift (get arguments "msg" JNull) ;;
         let result := JObj [ ("type", JStr "text");
                              ("text", client_msg) ] in
         ret (create_response request_id
                (JObj [ ("content", JArr [result]) ]))
       else if eq_str tool_name "chesscomProfileFollowers" then
         arguments <- lift (get params "arguments" JNull) ;;
         player <- lift (get arguments "username" JNull) ;;
         let url := CHESSCOM_API_BASE ++ "/pub/player/" ++ str player in
         data <- make_chess_request url ;;
         if negb (truthy data) then
           ret (create_error_response request_id (-1) "Chess.com user profile not found")
         else
           followers <- lift (getitem data "followers") ;;
           let result := JObj [ ("type", JStr "text");
                                ("text", JStr (str followers)) ] in
           ret (create_response request_id
                  (JObj [ ("content", JArr [result]) ]))
       else
         ret (create_error_response request_id (-32601) "tool not found")
     else
       ret (create_error_response request_id (-32601) "method not found"))
    (fun e =>
       request_id <- lift (get request "id" JNull) ;;
       ret (create_error_response request_id (-32603) (str_exn e))).

(** The envelope [main] prints when anything raises in an iteration. *)
Definition error_response : json :=
  JObj [ ("jsonrpc", JStr "2.0");
         ("id", JNull);
         ("error", JObj [ ("code", JInt (-32700));
                          ("message", JStr "Parse error") ]) ].

(** One iteration of [main] on a non-empty [line]: the [try] body up to
    [print], or the [except] arm; the result is the text given to [print]. *)
Definition iteration (line : string) (sent : list Request) : string * list Request :=
  match (request <- lift (json_loads (strip line)) ;;
         response <- handle_jsonrpc request ;;
         ret (json_dumps response)) sent with
  | (Returned text, sent') => (text, sent')
  | (Raised _, sent') => (json_dumps error_response, sent')
  end.

(** [while True] of [main].  [stdin] is the unread input, [stdout] the
    texts given to [print] so far, oldest first.  [print] writes its text
    and a line break, and [json.dumps] without [indent] puts no line break
    in its output, so each text is one output line. *)
Fixpoint main_loop (fuel : nat) (stdin : string) (stdout : list string)
    (sent : list Request) : option (list string * list Request) :=
  match fuel with
  | O => None
  | S fuel' =>
      let (line, unread) := readline stdin in
      match line with
      | EmptyString => Some (stdout, sent)
      | _ =>
          let (text, sent') := iteration line sent in
          main_loop fuel' unread (stdout ++ [text])%list sent'
      end
  end.

(** A run of [main] on the whole input: one iteration per line and one
    more to meet the end of input. *)
Definition main (stdin : string) : option (list string * list Request) :=
  main_loop (S (String.length stdin)) stdin [] [].

End WithWorld.

End Server.

(* ================================================================== *)
(** ** A concrete runtime

    A JSON codec and [repr] for the fragment without floats, escapes of the
    form [\uXXXX] and characters above 127, and a few scripted HTTP peers.
    The theorems below hold for every [Runtime] and [Network]; this one
    serves to run the server on actual lines. *)

Module SampleRuntime.
Import Py Eff.

Definition dquote : ascii := "034"%char.
Definition squote : ascii := "039"%char.
Definition backslash : ascii := "092"%char.

(** Writes a text with ['] where the text has a double quote. *)
Fixpoint dq (s : string) : string :=
  match s with
  | EmptyString => EmptyString
  | String c rest => String (if Ascii.eqb c squote then dquote else c) (dq rest)
  end.

Definition hex_digit (n : nat) : ascii :=
  ascii_of_nat (if (n <? 10)%nat then 48 + n else 87 + n).

Definition hex2 (c : ascii) : string :=
  let n := nat_of_ascii c in
  String (hex_digit (n / 16)) (String (hex_digit (n mod 16)) EmptyString).

Fixpoint contains (c : ascii) (s : string) : bool :=
  match s with
  | EmptyString => false
  | String c' rest => Ascii.eqb c c' || contains c rest
  end.

Definition printable (c : ascii) : bool :=
  let n := nat_of_ascii c in ((32 <=? n) && (n <? 127))%nat.

Fixpoint repr_chars (quote : ascii) (s : string) : string :=
  match s with
  | EmptyString => EmptyString
  | String c rest =>
      (if Ascii.eqb c backslash || Ascii.eqb c quote then String backslash (String c EmptyString)
       else if Ascii.eqb c "010"%char then String backslash "n"
       else if Ascii.eqb c "013"%char then String backslash "r"
       else if Ascii.eqb c "009"%char then String backslash "t"
       else if printable c then String c EmptyString
       else String backslash (String "x"%char (hex2 c)))
      ++ repr_chars quote rest
  end.

(** [repr(s)]: single quotes unless [s] has one and no double quote. *)
Definition sample_repr_str (s : string) : string :=
  let quote := if contains squote s && negb (contains dquote s) then dquote else squote in
  String quote (repr_chars quote s ++ String quote EmptyString).

(** [repr(f)] of the values that have a fixed spelling; no other float
    arises in this fragment. *)
Definition sample_repr_float (f : spec_float) : string :=
  match f with
  | S754_zero false => "0.0"
  | S754_zero true => "-0.0"
  | S754_infinity false => "inf"
  | S754_infinity true => "-inf"
  | S754_nan => "nan"
  | S754_finite _ _ _ => "<float>"
  end.

(** *** Encoder: [json.dumps] with its default separators *)

Fixpoint dumps_chars (s : string) : string :=
  match s with
  | EmptyString => EmptyString
  | String c rest =>
      (if Ascii.eqb c backslash || Ascii.eqb c dquote then String backslash (String c EmptyString)
       else if Ascii.eqb c "010"%char then String backslash "n"
       else if Ascii.eqb c "013"%char then String backslash "r"
       else if Ascii.eqb c "009"%char then String backslash "t"
       else if Ascii.eqb c "008"%char then String backslash "b"
       else if Ascii.eqb c "012"%char then String backslash "f"
       else if printable c then String c EmptyString
       else String backslash ("u00" ++ hex2 c))
      ++ dumps_chars rest
  end.

Definition dumps_str (s : string) : string :=
  String dquote (dumps_chars s ++ String dquote EmptyString).

Definition dumps_float (f : spec_float) : string :=
  match f with
  | S754_infinity false => "Infinity"
  | S754_infinity true => "-Infinity"
  | S754_nan => "NaN"
  | _ => sample_repr_float f
  end.

Fixpoint sample_dumps (v : json) : string :=
  match v with
  | JNull => "null"
  | JBool true => "true"
  | JBool false => "false"
  | JInt z => str_int z
  | JFloat f => dumps_float f
  | JStr s => dumps_str s
  | JArr items => "[" ++ join ", " (map sample_dumps items) ++ "]"
  | JObj fields =>
      "{" ++ join ", " (map (fun kv => dumps_str (fst kv) ++ ": " ++ sample_dumps (snd kv)) fields) ++ "}"
  end.

(** *** Decoder: [json.loads] *)

Definition is_ws (c : ascii) : bool :=
  Ascii.eqb c " "%char || Ascii.eqb c "009"%char || Ascii.eqb c "010"%char || Ascii.eqb c "013"%char.

Fixpoint skip_ws (s : string) : string :=
  match s with
  | String c rest => if is_ws c then skip_ws rest else s
  | EmptyString => EmptyString
  end.

Definition digit_of (c : ascii) : option Z :=
  let n := nat_of_ascii c in
  if ((48 <=? n) && (n <=? 57))%nat then Some (Z.of_nat n - 48) else None.

(** The characters of a string literal after its opening quote. *)
Fixpoint scan_chars (s : string) : option (string * string) :=
  match s with
  | EmptyString => None
  | String c rest =>
      if Ascii.eqb c dquote then Some (EmptyString, rest)
      else if Ascii.eqb c backslash then
        match rest with
        | String e rest' =>
            let unescaped :=
              if Ascii.eqb e dquote || Ascii.eqb e backslash || Ascii.eqb e "/"%char then Some e
              else if Ascii.eqb e "n"%char then Some "010"%char
              else if Ascii.eqb e "r"%char then Some "013"%char
              else if Ascii.eqb e "t"%char then Some "009"%char
              else if Ascii.eqb e "b"%char then Some "008"%char
              else if Ascii.eqb e "f"%char then Some "012"%char
              else None in
            match unescaped, scan_chars rest' with
            | Some u, Some (text, after) => Some (String u text, after)
            | _, _ => None
            end
        | EmptyString => None
        end
      else if (nat_of_ascii c <? 32)%nat then None
      else
        match scan_chars rest with
        | Some (text, after) => Some (String c text, after)
        | None => None
        end
  end.

Fixpoint scan_digits (s : string) (acc : Z) : Z * string :=
  match s with
  | String c rest =>
      match digit_of c with
      | Some d => scan_digits rest (10 * acc + d)
      | None => (acc, s)
      end
  | EmptyString => (acc, s)
  end.

(** An integer literal whose first digit is [d]: no leading zero, and no
    fraction or exponent after it. *)
Definition scan_int (negative : bool) (d : Z) (rest : string) : option (json * string) :=
  let (n, after) := if d =? 0 then (0, rest) else scan_digits rest d in
  let ok :=
    match after with
    | String c _ =>
        negb (Ascii.eqb c "."%char || Ascii.eqb c "e"%char || Ascii.eqb c "E"%char
              || match digit_of c with Some _ => true | None => false end)
    | EmptyString => true
    end in
  if ok then Some (JInt (if negative then - n else n), after) else None.

(** [d[key] = v] *)
Fixpoint setitem (d : dict) (key : string) (v : json) : dict :=
  match d with
  | [] => [(key, v)]
  | (k, x) :: rest =>
      if String.eqb k key then (k, v) :: rest else (k, x) :: setitem rest key v
  end.

Fixpoint scan_value (fuel : nat) (s : string) : option (json * string) :=
  match fuel with
  | O => None
  | S fuel' =>
      match skip_ws s with
      | String "n" (String "u" (String "l" (String "l" after))) => Some (JNull, after)
      | String "t" (String "r" (String "u" (String "e" after))) => Some (JBool true, after)
      | String "f" (String "a" (String "l" (String "s" (String "e" after)))) =>
          Some (JBool false, after)
      | String "[" rest =>
          match skip_ws rest with
          | String "]" after => Some (JArr [], after)
          | _ => scan_items fuel' rest []
          end
      | String "{" rest =>
          match skip_ws rest with
          | String "}" after => Some (JObj [], after)
          | _ => scan_members fuel' rest []
          end
      | String "-" (String c rest) =>
          match digit_of c with
          | Some d => scan_int true d rest
          | None => None
          end
      | String c rest =>
          if Ascii.eqb c dquote then
            match scan_chars rest with
            | Some (text, after) => Some (JStr text, after)
            | None => None
            end
          else
            match digit_of c with
            | Some d => scan_int false d rest
            | None => None
            end
      | EmptyString => None
      end
  end
with scan_items (fuel : nat) (s : string) (seen : list json) : option (json * string) :=
  match fuel with
  | O => None
  | S fuel' =>
      match scan_value fuel' s with
      | Some (v, after) =>
          match skip_ws after with
          | String "," rest => scan_items fuel' rest (seen ++ [v])%list
          | String "]" rest => Some (JArr (seen ++ [v])%list, rest)
          | _ => None
          end
      | None => None
      end
  end
with scan_members (fuel : nat) (s : string) (seen : dict) : option (json * string) :=
  match fuel with
  | O => None
  | S fuel' =>
      match skip_ws s with
      | String c rest =>
          if Ascii.eqb c dquote then
            match scan_chars rest with
            | Some (key, after) =>
                match skip_ws after with
                | String ":" rest' =>
                    match scan_value fuel' rest' with
                    | Some (v, after') =>
                        match skip_ws after' with
                        | String "," rest'' => scan_members fuel' rest'' (setitem seen key v)
                        | String "}" rest'' => Some (JObj (setitem seen key v), rest'')
                        | _ => None
                        end
                    | None => None
                    end
                | _ => None
                end
            | None => None
            end
          else None
      | EmptyString => None
      end
  end.

Definition sample_loads (text : string) : outcome json :=
  match scan_value (S (String.length text)) text with
  | Some (v, after) =>
      match skip_ws after with
      | EmptyString => Returned v
      | _ => Raised (LibraryError "JSONDecodeError" "Extra data")
      end
  | None => Raised (LibraryError "JSONDecodeError" "Expecting value")
  end.

Definition sample : Runtime := {|
  repr_str := sample_repr_str;
  repr_float := sample_repr_float;
  json_loads := sample_loads;
  json_dumps := sample_dumps
|}.

(** *** Scripted peers *)

(** No route to the service: every GET raises. *)
Definition unreachable : Network := {|
  client_get := fun _ _ => Raised (LibraryError "ConnectError" "All connection attempts failed")
|}.

(** The service does not answer within the timeout. *)
Definition silent : Network := {|
  client_get := fun _ _ => Raised (LibraryError "ReadTimeout" "The read operation timed out")
|}.

(** The service answers every GET with the given status and body text. *)
Definition answering (status : Z) (body : string) : Network := {|
  client_get := fun _ _ =>
    Returned {| status_code := status;
                status_error := LibraryError "HTTPStatusError" ("status " ++ str_int status);
                json_body := sample_loads body |}
|}.

End SampleRuntime.

(* ================================================================== *)
(** ** Vocabulary of the properties *)

Module Props.
Import Py Eff Server.

(** [d.get(key)]: the binding, or [None]. *)
Definition field (d : dict) (key : string) : json :=
  match lookup d key with
  | Some v => v
  | None => JNull
  end.

(** A response envelope for the request id [id]: the success form or the
    error form, with exactly one of [result] and [error]. *)
Inductive envelope (id : json) : json -> Prop :=
| envelope_result (result : json) :
    envelope id (JObj [("jsonrpc", JStr "2.0"); ("id", id); ("result", result)])
| envelope_error (code : Z) (message : string) :
    envelope id (JObj [("jsonrpc", JStr "2.0"); ("id", id);
                       ("error", JObj [("code", JInt code); ("message", JStr message)])]).

(** A tool entry with one required string parameter. *)
Definition tool_spec (name description param param_description : string) : json :=
  JObj [ ("name", JStr name);
         ("description", JStr description);
         ("inputSchema",
          JObj [ ("type", JStr "object");
                 ("properties",
                  JObj [ (param, JObj [ ("type", JStr "string");
                                        ("description", JStr param_description) ]) ]);
                 ("required", JArr [JStr param]) ]) ].

(** The catalog a client is shown. *)
Definition catalog : list json :=
  [ tool_spec "echoserver" "Reply to a message with its echo (the message itself)"
      "msg" "Message to reply";
    tool_spec "chesscomProfileFollowers" "Get a chess.com player followers"
      "username" "Chess.com username" ].

(** [name] is the name of a tool of the registry. *)
Definition in_catalog (name : json) : bool :=
  match name with
  | JStr s => match lookup tools s with Some _ => true | None => false end
  | _ => false
  end.

(** A result with a single text content item. *)
Definition text_content (text : json) : json :=
  JObj [ ("content", JArr [ JObj [ ("type", JStr "text"); ("text", text) ] ]) ].

(** The GET the lookup tool issues for the arguments [args]. *)
Definition profile_request {rt : Runtime} (args : dict) : Request :=
  {| req_url := "https://api.chess.com/pub/player/" ++ str (field args "username");
     req_headers := [ ("User-Agent", "chesscom-app/1.0"); ("Accept", "application/json") ];
     req_timeout := 30 |}.

(** The collaborator reports no data: the GET raised (connection failure,
    timeout expiry), the status is not 2xx, or the body does not decode. *)
Inductive no_data : outcome Response -> Prop :=
| get_raised (e : exn) :
    no_data (Raised e)
| status_not_success (response : Response) :
    is_success response = false -> no_data (Returned response)
| body_malformed (response : Response) (e : exn) :
    json_body response = Raised e -> no_data (Returned response).

(** What the lookup tool answers to the request [id] once the collaborator
    has returned [data]. *)
Definition lookup_outcome {rt : Runtime} (id data : json) : json :=
  if negb (truthy data) then
    create_error_response id (-1) "Chess.com user profile not found"
  else
    match getitem data "followers" with
    | Returned followers => create_response id (text_content (JStr (str followers)))
    | Raised e => create_error_response id (-32603) (str_exn e)
    end.

(** A text without a line break. *)
Fixpoint one_line (s : string) : bool :=
  match s with
  | EmptyString => true
  | String c rest => negb (Ascii.eqb c newline) && one_line rest
  end.

Definition nl : string := String newline EmptyString.

(** An answer of the dispatcher to the request [id]: the success
    envelope, or the error envelope with one of the three codes the
    dispatcher uses. *)
Inductive answer (id : json) : json -> Prop :=
| answer_result (result : json) :
    answer id (JObj [ ("jsonrpc", JStr "2.0"); ("id", id); ("result", result) ])
| answer_error (code : Z) (message : string) :
    In code [-1; -32601; -32603] ->
    answer id (JObj [ ("jsonrpc", JStr "2.0"); ("id", id);
                      ("error", JObj [ ("code", JInt code); ("message", JStr message) ]) ]).

(** The code of an error envelope; [None] for an envelope without
    [error]. *)
Definition error_code (response : json) : option Z :=
  match response with
  | JObj fields =>
      match lookup fields "error" with
      | Some (JObj error) =>
          match lookup error "code" with
          | Some (JInt code) => Some code
          | _ => None
          end
      | _ => None
      end
  | _ => None
  end.

(** [isinstance(v, dict)] *)
Definition is_object (v : json) : bool :=
  match v with
  | JObj _ => true
  | _ => false
  end.

(** The lines of a text in the order successive [readline] calls yield
    them: each ends with its line break, except possibly the last. *)
Fixpoint lines (s : string) : list string :=
  match s with
  | EmptyString => []
  | String c rest =>
      if Ascii.eqb c newline then String c EmptyString :: lines rest
      else
        match lines rest with
        | [] => [String c EmptyString]
        | line :: others => String c line :: others
        end
  end.

(** A text of whitespace only, as [str.strip] sees whitespace. *)
Fixpoint blank (s : string) : bool :=
  match s with
  | EmptyString => true
  | String c rest => isspace c && blank rest
  end.

(** The iterations of [main] over lines already read, oldest first. *)
Fixpoint serve {rt : Runtime} {net : Network} (pending : list string)
    (stdout : list string) (sent : list Request) : list string * list Request :=
  match pending with
  | [] => (stdout, sent)
  | line :: others =>
      let (text, sent') := iteration line sent in
      serve others (stdout ++ [text])%list sent'
  end.

End Props.

(* ================================================================== *)
(** ** Sample traffic

    The requests of the terminal session recorded at the end of
    [echoserver.py], and a few more. *)

Module Transcript.
Import Py Eff Server Props SampleRuntime.

Definition initialize_line : string :=
  dq "{'jsonrpc': '2.0', 'id': 1, 'method': 'initialize', 'params': {}}".

Definition initialize_request : dict :=
  [ ("jsonrpc", JStr "2.0"); ("id", JInt 1); ("method", JStr "initialize"); ("params", JObj []) ].

Definition tools_list_line : string :=
  dq "{'jsonrpc': '2.0', 'id': 2, 'method': 'tools/list'}".

Definition tools_list_request : dict :=
  [ ("jsonrpc", JStr "2.0"); ("id", JInt 2); ("method", JStr "tools/list") ].

(** A [tools/call] request as a client sends it. *)
Definition call (id : json) (params : dict) : dict :=
  [ ("method", JStr "tools/call"); ("params", JObj params); ("jsonrpc", JStr "2.0"); ("id", id) ].

Definition echo_line : string :=
  dq "{'method':'tools/call','params':{'name':'echoserver','arguments':{'msg':'Hi'}},'jsonrpc':'2.0','id':23}".

Definition echo_request (msg : string) : dict :=
  call (JInt 23) [ ("name", JStr "echoserver"); ("arguments", JObj [ ("msg", JStr msg) ]) ].

Definition lookup_line : string :=
  dq "{'method':'tools/call','params':{'name':'chesscomProfileFollowers','arguments':{'username':'jyassgt'}},'jsonrpc':'2.0','id':23}".

Definition lookup_request (username : string) : dict :=
  call (JInt 23)
    [ ("name", JStr "chesscomProfileFollowers");
      ("arguments", JObj [ ("username", JStr username) ]) ].

(** A message with quotes, a backslash and a line break in it. *)
Definition tricky : string :=
  dq "she said 'hi'" ++ String backslash EmptyString ++ nl ++ "it's all".

(** The GET for the profile of [username]. *)
Definition profile_get (username : string) : Request :=
  {| req_url := "https://api.chess.com/pub/player/" ++ username;
     req_headers := [ ("User-Agent", "chesscom-app/1.0"); ("Accept", "application/json") ];
     req_timeout := 30 |}.

(** The two envelopes of the malformed-line scenario, as printed. *)
Definition parse_error_text : string :=
  dq "{'jsonrpc': '2.0', 'id': null, 'error': {'code': -32700, 'message': 'Parse error'}}".

Definition tools_list_text : string :=
  dq "{'jsonrpc': '2.0', 'id': 2, 'result': {'tools': [{'name': 'echoserver', 'description': 'Reply to a message with its echo (the message itself)', 'inputSchema': {'type': 'object', 'properties': {'msg': {'type': 'string', 'description': 'Message to reply'}}, 'required': ['msg']}}, {'name': 'chesscomProfileFollowers', 'description': 'Get a chess.com player followers', 'inputSchema': {'type': 'object', 'properties': {'username': {'type': 'string', 'description': 'Chess.com username'}}, 'required': ['username']}}]}}".

End Transcript.

(* ================================================================== *)
(** ** Properties of the dispatcher *)

Module Dispatcher.
Import Py Eff Server Props.

Section WithWorld.
Context {rt : Runtime} {net : Network}.

Lemma get_object (fields : dict) (key : string) (default : json) :
  get (JObj fields) key default =
  Returned match lookup fields key with Some v => v | None => default end.
Proof. reflexivity. Qed.

(** Only the two registered names pass the tests of the [tools/call] arm. *)
Lemma in_catalog_tests (name : json) :
  in_catalog name = eq_str name "echoserver" || eq_str name "chesscomProfileFollowers".
Proof.
  destruct name; try reflexivity.
  unfold in_catalog, tools, eq_str, lookup.
  rewrite (String.eqb_sym "echoserver" s), (String.eqb_sym "chesscomProfileFollowers" s).
  destruct (String.eqb s "echoserver"); [reflexivity|].
  destruct (String.eqb s "chesscomProfileFollowers"); reflexivity.
Qed.

(** The registry lists what the catalog says, in its order. *)
Lemma values_tools : values tools = catalog.
Proof. reflexivity. Qed.

(** How the collaborator call ends, case by case. *)
Lemma make_chess_request_no_data (url : string) (sent : list Request) :
  let r := {| req_url := url;
              req_headers := [ ("User-Agent", USER_AGENT); ("Accept", "application/json") ];
              req_timeout := 30 |} in
  no_data (client_get sent r) ->
  make_chess_request url sent = (Returned JNull, (sent ++ [r])%list).
Proof.
  intros r H. unfold make_chess_request, try_except, bind, http_get. fold r.
  inversion H as [e He | response Hs He | response e Hb He].
  - reflexivity.
  - unfold raise_for_status. rewrite Hs. reflexivity.
  - unfold raise_for_status, response_json, lift.
    destruct (is_success response); [rewrite Hb|]; reflexivity.
Qed.

Lemma make_chess_request_data (url : string) (sent : list Request)
    (response : Response) (data : json) :
  let r := {| req_url := url;
              req_headers := [ ("User-Agent", USER_AGENT); ("Accept", "application/json") ];
              req_timeout := 30 |} in
  client_get sent r = Returned response ->
  is_success response = true ->
  json_body response = Returned data ->
  make_chess_request url sent = (Returned data, (sent ++ [r])%list).
Proof.
  intros r Hg Hs Hb. unfold make_chess_request, try_except, bind, http_get. fold r.
  rewrite Hg. unfold raise_for_status, response_json, lift. rewrite Hs. cbn.
  rewrite Hb. reflexivity.
Qed.

(** The collaborator call never raises, and asks the service once. *)
Lemma make_chess_request_returns (url : string) (sent : list Request) :
  let r := {| req_url := url;
              req_headers := [ ("User-Agent", USER_AGENT); ("Accept", "application/json") ];
              req_timeout := 30 |} in
  exists data, make_chess_request url sent = (Returned data, (sent ++ [r])%list).
Proof.
  intros r. unfold make_chess_request, try_except, bind, http_get. fold r.
  destruct (client_get sent r) as [response | e]; [|unfold ret; eauto].
  unfold raise_for_status, response_json, lift, ret, raise.
  destruct (is_success response); [|eauto].
  destruct (json_body response); eauto.
Qed.

Lemma handle_lookup (fields params args : dict) (sent sent' : list Request) (data : json) :
  lookup fields "method" = Some (JStr "tools/call") ->
  lookup fields "params" = Some (JObj params) ->
  lookup params "name" = Some (JStr "chesscomProfileFollowers") ->
  lookup params "arguments" = Some (JObj args) ->
  make_chess_request (req_url (profile_request args)) sent = (Returned data, sent') ->
  handle_jsonrpc (JObj fields) sent =
  (Returned (lookup_outcome (field fields "id") data), sent').
Proof.
  intros Hm Hp Hn Ha Hd.
  unfold handle_jsonrpc, try_except, bind, lift.
  rewrite !get_object, Hm, Hp. cbn [eq_str String.eqb Ascii.eqb Bool.eqb].
  rewrite !get_object, Hn. cbn [eq_str String.eqb Ascii.eqb Bool.eqb].
  rewrite Ha, get_object. fold (field args "username").
  change (CHESSCOM_API_BASE ++ "/pub/player/" ++ str (field args "username"))
    with (req_url (profile_request args)).
  rewrite Hd. unfold lookup_outcome, field.
  destruct (truthy data); cbn [negb]; [|reflexivity].
  destruct (getitem data "followers"); reflexivity.
Qed.

(** The lookup arm asks the service only when the arguments are an object,
    and then for the profile of their [username]. *)
Lemma handle_lookup_asks (fields params : dict) (sent : list Request) (r : Request) :
  lookup fields "method" = Some (JStr "tools/call") ->
  lookup fields "params" = Some (JObj params) ->
  lookup params "name" = Some (JStr "chesscomProfileFollowers") ->
  snd (handle_jsonrpc (JObj fields) sent) = (sent ++ [r])%list ->
  exists args,
    lookup params "arguments" = Some (JObj args) /\ r = profile_request args.
Proof.
  intros Hm Hp Hn Hr.
  assert (Hquiet : forall arguments,
             field params "arguments" = arguments ->
             (forall args, arguments <> JObj args) ->
             snd (handle_jsonrpc (JObj fields) sent) = sent).
  { intros arguments Ha Hno. unfold handle_jsonrpc, try_except, bind, lift.
    rewrite !get_object, Hm, Hp. cbn [eq_str String.eqb Ascii.eqb Bool.eqb].
    rewrite !get_object, Hn. cbn [eq_str String.eqb Ascii.eqb Bool.eqb].
    fold (field params "arguments"). rewrite Ha.
    destruct arguments; try reflexivity. now elim (Hno fields0). }
  assert (Hnot : forall arguments,
             field params "arguments" = arguments ->
             (forall args, arguments <> JObj args) -> False).
  { intros arguments Ha Hno. rewrite (Hquiet arguments Ha Hno) in Hr.
    apply (f_equal (@List.length Request)) in Hr.
    rewrite List.length_app in Hr. cbn in Hr. lia. }
  unfold field in Hnot.
  destruct (lookup params "arguments") as [[| | | | |items|args]|] eqn:Ha;
    try (exfalso; apply (Hnot _ eq_refl); discriminate).
  exists args. split; [reflexivity|].
  destruct (make_chess_request_returns (req_url (profile_request args)) sent) as [data Hd].
  rewrite (handle_lookup fields params args sent _ data Hm Hp Hn Ha Hd) in Hr.
  cbn [snd] in Hr. apply app_inv_head in Hr. now injection Hr.
Qed.

(** C7. Every [initialize] request, whatever its id, is answered by the
    success envelope with that id and the fixed declaration of protocol
    version, capabilities and server info; no outbound request is issued. *)
Theorem initialize_response (fields : dict) (sent : list Request) :
  lookup fields "method" = Some (JStr "initialize") ->
  handle_jsonrpc (JObj fields) sent =
  (Returned
     (JObj [ ("jsonrpc", JStr "2.0");
             ("id", field fields "id");
             ("result",
              JObj [ ("protocolVersion", JStr "2024-11-05");
                     ("capabilities", JObj [ ("tools", JObj []) ]);
                     ("serverInfo", JObj [ ("name", JStr "echoserver");
                                           ("version", JStr "1.0.0") ]) ]) ]),
   sent).
Proof.
  intros Hm. unfold handle_jsonrpc, try_except, bind, lift.
  rewrite !get_object, Hm. reflexivity.
Qed.

Lemma handle_tools_list (fields : dict) (sent : list Request) :
  lookup fields "method" = Some (JStr "tools/list") ->
  handle_jsonrpc (JObj fields) sent =
  (Returned (create_response (field fields "id") (JObj [ ("tools", JArr catalog) ])), sent).
Proof.
  intros Hm. unfold handle_jsonrpc, try_except, bind, lift.
  rewrite !get_object, Hm. reflexivity.
Qed.

(** C8. Every [tools/list] request is answered by the success envelope
    whose result is the two-entry catalog in registry order, [echoserver]
    requiring [msg] and then [chesscomProfileFollowers] requiring
    [username]; a second [tools/list] call on the same server is answered
    with the same catalog. *)
Theorem tools_list_response (fields : dict) (sent : list Request) :
  lookup fields "method" = Some (JStr "tools/list") ->
  let listing :=
    JObj [ ("tools",
            JArr [ tool_spec "echoserver"
                     "Reply to a message with its echo (the message itself)"
                     "msg" "Message to reply";
                   tool_spec "chesscomProfileFollowers"
                     "Get a chess.com player followers"
                     "username" "Chess.com username" ]) ] in
  handle_jsonrpc (JObj fields) sent =
    (Returned (JObj [ ("jsonrpc", JStr "2.0"); ("id", field fields "id");
                      ("result", listing) ]), sent)
  /\ forall fields' : dict,
       lookup fields' "method" = Some (JStr "tools/list") ->
       bind (handle_jsonrpc (JObj fields))
         (fun first => bind (handle_jsonrpc (JObj fields'))
            (fun second => ret (first, second))) sent =
       (Returned (JObj [ ("jsonrpc", JStr "2.0"); ("id", field fields "id");
                         ("result", listing) ],
                  JObj [ ("jsonrpc", JStr "2.0"); ("id", field fields' "id");
                         ("result", listing) ]), sent).
Proof.
  intros Hm listing. split.
  - now apply handle_tools_list.
  - intros fields' Hm'. unfold bind.
    rewrite (handle_tools_list fields sent Hm), (handle_tools_list fields' sent Hm').
    reflexivity.
Qed.

(** C9. A [tools/call] request whose [params.name] is not a name of the
    catalog is answered by the error envelope with code -32601, whatever
    [params.arguments] holds. *)
Theorem unknown_tool (fields params : dict) (sent : list Request) :
  lookup fields "method" = Some (JStr "tools/call") ->
  get (JObj fields) "params" (JObj []) = Returned (JObj params) ->
  in_catalog (field params "name") = false ->
  handle_jsonrpc (JObj fields) sent =
  (Returned (JObj [ ("jsonrpc", JStr "2.0"); ("id", field fields "id");
                    ("error", JObj [ ("code", JInt (-32601));
                                     ("message", JStr "tool not found") ]) ]), sent).
Proof.
  intros Hm Hp Hn. rewrite in_catalog_tests in Hn.
  apply orb_false_elim in Hn as [He Hc].
  unfold handle_jsonrpc, try_except, bind, lift.
  rewrite Hp, !get_object, Hm. cbn [eq_str String.eqb Ascii.eqb Bool.eqb].
  fold (field params "name"). rewrite He, Hc. reflexivity.
Qed.

(** C2. A [tools/call] request naming [echoserver] with [msg] bound to a
    string [s] is answered by the success envelope whose content is the
    single text item [s], unchanged. *)
Theorem echo_returns_msg (fields params args : dict) (s : string) (sent : list Request) :
  lookup fields "method" = Some (JStr "tools/call") ->
  lookup fields "params" = Some (JObj params) ->
  lookup params "name" = Some (JStr "echoserver") ->
  lookup params "arguments" = Some (JObj args) ->
  lookup args "msg" = Some (JStr s) ->
  handle_jsonrpc (JObj fields) sent =
  (Returned
     (JObj [ ("jsonrpc", JStr "2.0"); ("id", field fields "id");
             ("result", JObj [ ("content",
                                JArr [ JObj [ ("type", JStr "text"); ("text", JStr s) ] ]) ]) ]),
   sent).
Proof.
  intros Hm Hp Hn Ha Hs. unfold handle_jsonrpc, try_except, bind, lift.
  rewrite !get_object, Hm, Hp. cbn [eq_str String.eqb Ascii.eqb Bool.eqb].
  rewrite !get_object, Hn. cbn [eq_str String.eqb Ascii.eqb Bool.eqb].
  rewrite Ha, get_object, Hs. reflexivity.
Qed.

(** C5 (amended). A [tools/call] request naming [echoserver] fails, with
    code -32603 through the fallback, exactly when [params.arguments] is
    missing or is not an object; when it is an object the call succeeds
    and the text is [msg], or null where [msg] is missing. *)
Theorem echo_fails_iff_arguments_not_object (fields params : dict) (sent : list Request) :
  lookup fields "method" = Some (JStr "tools/call") ->
  lookup fields "params" = Some (JObj params) ->
  lookup params "name" = Some (JStr "echoserver") ->
  handle_jsonrpc (JObj fields) sent =
  (Returned
     match field params "arguments" with
     | JObj args => JObj [ ("jsonrpc", JStr "2.0"); ("id", field fields "id");
                           ("result",
                            JObj [ ("content",
                                    JArr [ JObj [ ("type", JStr "text");
                                                  ("text", field args "msg") ] ]) ]) ]
     | other =>
         JObj [ ("jsonrpc", JStr "2.0"); ("id", field fields "id");
                ("error", JObj [ ("code", JInt (-32603));
                                 ("message",
                                  JStr ("'" ++ type_name other ++ "' object has no attribute 'get'")) ]) ]
     end,
   sent).
Proof.
  intros Hm Hp Hn. unfold handle_jsonrpc, try_except, bind, lift.
  rewrite !get_object, Hm, Hp. cbn [eq_str String.eqb Ascii.eqb Bool.eqb].
  rewrite !get_object, Hn. cbn [eq_str String.eqb Ascii.eqb Bool.eqb].
  fold (field params "arguments").
  destruct (field params "arguments"); reflexivity.
Qed.

(** C3. For a [tools/call] request naming the lookup tool, whenever the
    collaborator, once asked, reports no data (the GET raises on a
    connection failure or on the timeout, the status is not 2xx, or the
    body is malformed), the answer is in every case the same error
    envelope, with code -1 and message "Chess.com user profile not found". *)
Theorem lookup_failure_folding (fields params : dict) (sent : list Request) (r : Request) :
  lookup fields "method" = Some (JStr "tools/call") ->
  lookup fields "params" = Some (JObj params) ->
  lookup params "name" = Some (JStr "chesscomProfileFollowers") ->
  snd (handle_jsonrpc (JObj fields) sent) = (sent ++ [r])%list ->
  no_data (client_get sent r) ->
  fst (handle_jsonrpc (JObj fields) sent) =
  Returned (JObj [ ("jsonrpc", JStr "2.0"); ("id", field fields "id");
                   ("error", JObj [ ("code", JInt (-1));
                                    ("message", JStr "Chess.com user profile not found") ]) ]).
Proof.
  intros Hm Hp Hn Hr Hd.
  destruct (handle_lookup_asks fields params sent r Hm Hp Hn Hr) as (args & Ha & ->).
  rewrite (handle_lookup fields params args sent
             (sent ++ [profile_request args])%list JNull Hm Hp Hn Ha).
  - reflexivity.
  - now apply make_chess_request_no_data.
Qed.

(** C10. For a [tools/call] request naming the lookup tool, when the GET
    it issues succeeds with a 2xx status and a body that decodes to a
    falsy value (the empty object among them), the answer is the error
    envelope with code -1 and message "Chess.com user profile not found":
    absence of data is every falsy value, not only a failed request. *)
Theorem lookup_falsy_data_is_not_found (fields params : dict) (sent : list Request)
    (r : Request) (response : Response) (data : json) :
  lookup fields "method" = Some (JStr "tools/call") ->
  lookup fields "params" = Some (JObj params) ->
  lookup params "name" = Some (JStr "chesscomProfileFollowers") ->
  snd (handle_jsonrpc (JObj fields) sent) = (sent ++ [r])%list ->
  client_get sent r = Returned response ->
  is_success response = true ->
  json_body response = Returned data ->
  truthy data = false ->
  fst (handle_jsonrpc (JObj fields) sent) =
  Returned (JObj [ ("jsonrpc", JStr "2.0"); ("id", field fields "id");
                   ("error", JObj [ ("code", JInt (-1));
                                    ("message", JStr "Chess.com user profile not found") ]) ]).
Proof.
  intros Hm Hp Hn Hr Hg Hs Hb Ht.
  destruct (handle_lookup_asks fields params sent r Hm Hp Hn Hr) as (args & Ha & ->).
  rewrite (handle_lookup fields params args sent
             (sent ++ [profile_request args])%list data Hm Hp Hn Ha).
  - unfold lookup_outcome. now rewrite Ht.
  - now apply make_chess_request_data with response.
Qed.

(** C6 (amended). For a [tools/call] request naming the lookup tool, when
    the collaborator returns a JSON object: if the object holds
    [followers], the answer is the success envelope whose sole content is
    the text of that value (an integer in decimal, so "42" for 42); if the
    object is not empty and holds no [followers], the answer is the error
    envelope with code -32603 of the fallback. *)
Theorem lookup_followers (fields params : dict) (sent : list Request)
    (r : Request) (response : Response) (profile : dict) :
  lookup fields "method" = Some (JStr "tools/call") ->
  lookup fields "params" = Some (JObj params) ->
  lookup params "name" = Some (JStr "chesscomProfileFollowers") ->
  snd (handle_jsonrpc (JObj fields) sent) = (sent ++ [r])%list ->
  client_get sent r = Returned response ->
  is_success response = true ->
  json_body response = Returned (JObj profile) ->
  profile <> [] ->
  fst (handle_jsonrpc (JObj fields) sent) =
  Returned
    match lookup profile "followers" with
    | Some (JInt n) => JObj [ ("jsonrpc", JStr "2.0"); ("id", field fields "id");
                              ("result",
                               JObj [ ("content",
                                       JArr [ JObj [ ("type", JStr "text");
                                                     ("text", JStr (str_int n)) ] ]) ]) ]
    | Some followers => JObj [ ("jsonrpc", JStr "2.0"); ("id", field fields "id");
                               ("result",
                                JObj [ ("content",
                                        JArr [ JObj [ ("type", JStr "text");
                                                      ("text", JStr (str followers)) ] ]) ]) ]
    | None => JObj [ ("jsonrpc", JStr "2.0"); ("id", field fields "id");
                     ("error", JObj [ ("code", JInt (-32603));
                                      ("message", JStr (repr_str "followers")) ]) ]
    end.
Proof.
  intros Hm Hp Hn Hr Hg Hs Hb Hne.
  destruct (handle_lookup_asks fields params sent r Hm Hp Hn Hr) as (args & Ha & ->).
  rewrite (handle_lookup fields params args sent
             (sent ++ [profile_request args])%list (JObj profile) Hm Hp Hn Ha).
  - unfold lookup_outcome, getitem.
    replace (truthy (JObj profile)) with true by (destruct profile; [contradiction | reflexivity]).
    cbn [negb fst].
    destruct (lookup profile "followers") as [[]|]; reflexivity.
  - now apply make_chess_request_data with response.
Qed.

(** Every envelope the dispatcher builds is well formed. *)
Lemma create_response_envelope (id result : json) : envelope id (create_response id result).
Proof. constructor. Qed.

Lemma create_error_response_envelope (id : json) (code : Z) (message : string) :
  envelope id (create_error_response id code message).
Proof. constructor. Qed.

#[local] Hint Resolve create_response_envelope create_error_response_envelope : core.

(** Closes a branch of the dispatcher that ends in [ret] of an envelope. *)
Ltac answered := cbn; unfold ret; eauto 6.

(** C1 (amended). For every decoded JSON object, [handle_jsonrpc] returns
    (nothing is raised out of it) and what it returns is a response
    envelope carrying the id of the request, null when the object has no
    [id]. *)
Theorem handle_jsonrpc_returns_envelope (fields : dict) (sent : list Request) :
  exists (response : json) (sent' : list Request),
    handle_jsonrpc (JObj fields) sent = (Returned response, sent')
    /\ envelope (field fields "id") response.
Proof.
  unfold handle_jsonrpc, try_except, bind, lift.
  rewrite !get_object. fold (field fields "id").
  destruct (eq_str _ "initialize"); [answered|].
  destruct (eq_str _ "tools/list"); [answered|].
  destruct (eq_str _ "tools/call"); [|answered].
  set (params := match lookup fields "params" with Some v => v | None => JObj [] end).
  destruct (get params "name" JNull) as [tool_name|e]; [|answered].
  destruct (eq_str tool_name "echoserver").
  { destruct (get params "arguments" JNull) as [arguments|e]; [|answered].
    destruct (get arguments "msg" JNull) as [client_msg|e]; answered. }
  destruct (eq_str tool_name "chesscomProfileFollowers"); [|answered].
  destruct (get params "arguments" JNull) as [arguments|e]; [|answered].
  destruct (get arguments "username" JNull) as [player|e]; [|answered].
  destruct (make_chess_request_returns
              (CHESSCOM_API_BASE ++ "/pub/player/" ++ str player) sent) as (data & ->).
  destruct (truthy data); cbn [negb]; [|answered].
  destruct (getitem data "followers"); answered.
Qed.

End WithWorld.
End Dispatcher.

(* ================================================================== *)
(** ** Properties of the session loop *)

Module Session.
Import Py Eff Server Props.

Lemma readline_terminated (body rest : string) :
  one_line body = true ->
  readline (body ++ nl ++ rest) = (body ++ nl, rest).
Proof.
  induction body as [|c body IH]; cbn in *; [reflexivity|].
  intros H. apply andb_prop in H as [Hc Hb].
  apply negb_true_iff in Hc. rewrite Hc, (IH Hb). reflexivity.
Qed.

Lemma readline_unterminated (body : string) :
  one_line body = true ->
  readline body = (body, EmptyString).
Proof.
  induction body as [|c body IH]; cbn; [reflexivity|].
  intros H. apply andb_prop in H as [Hc Hb].
  apply negb_true_iff in Hc. rewrite Hc, (IH Hb). reflexivity.
Qed.

(** [readline] splits the unread text, and takes something unless the
    text is exhausted. *)
Lemma readline_length (unread : string) :
  (String.length unread =
   String.length (fst (readline unread)) + String.length (snd (readline unread)))%nat.
Proof.
  induction unread as [|c rest IH]; cbn; [reflexivity|].
  destruct (Ascii.eqb c newline); cbn; [reflexivity|].
  destruct (readline rest) as [line left]. cbn in *. lia.
Qed.

Lemma string_length_app (s t : string) :
  String.length (s ++ t) = (String.length s + String.length t)%nat.
Proof. induction s; cbn; [reflexivity | now f_equal]. Qed.

Section WithWorld.
Context {rt : Runtime} {net : Network}.

(** Fuel beyond what a run needs changes nothing. *)
Lemma main_loop_more_fuel (fuel : nat) :
  forall (stdin : string) (stdout : list string) (sent : list Request) result,
    main_loop fuel stdin stdout sent = Some result ->
    forall fuel', (fuel <= fuel')%nat ->
      main_loop fuel' stdin stdout sent = Some result.
Proof.
  induction fuel as [|fuel IH]; intros stdin stdout sent result H fuel' Hle; [discriminate|].
  destruct fuel' as [|fuel']; [lia|].
  cbn [main_loop] in *.
  destruct (readline stdin) as [line unread].
  destruct line as [|c line]; [assumption|].
  destruct (iteration (String c line) sent) as [text sent'].
  apply (IH _ _ _ _ H). lia.
Qed.

(** The loop ends on every finite input: one iteration per line at most,
    and one to read the end of input. *)
Lemma main_loop_terminates (fuel : nat) :
  forall (stdin : string) (stdout : list string) (sent : list Request),
    (String.length stdin < fuel)%nat ->
    exists result, main_loop fuel stdin stdout sent = Some result.
Proof.
  induction fuel as [|fuel IH]; intros stdin stdout sent Hlt; [lia|].
  cbn [main_loop].
  pose proof (readline_length stdin) as Hlen.
  destruct (readline stdin) as [line unread]. cbn [fst snd] in Hlen.
  destruct line as [|c line]; [eauto|].
  destruct (iteration (String c line) sent) as [text sent'].
  apply IH. cbn in Hlen. lia.
Qed.

(** [main] returns on every input, having printed one text per line. *)
Lemma main_returns (stdin : string) :
  exists result, main stdin = Some result.
Proof. apply main_loop_terminates. lia. Qed.

Lemma iteration_undecodable (line : string) (e : exn) (sent : list Request) :
  json_loads (strip line) = Raised e ->
  iteration line sent = (json_dumps error_response, sent).
Proof. intros H. unfold iteration, bind, lift. now rewrite H. Qed.

Lemma iteration_tools_list (line : string) (fields : dict) (sent : list Request) :
  json_loads (strip line) = Returned (JObj fields) ->
  lookup fields "method" = Some (JStr "tools/list") ->
  iteration line sent =
  (json_dumps (create_response (field fields "id") (JObj [ ("tools", JArr catalog) ])), sent).
Proof.
  intros H Hm. unfold iteration, bind, lift. rewrite H.
  now rewrite (Dispatcher.handle_tools_list fields sent Hm).
Qed.

(** C4. On an input made of one undecodable line followed by one valid
    [tools/list] line, the session loop prints exactly two texts: the
    error envelope with code -32700 and id null, then the success envelope
    of [tools/list]; the first line neither stops the loop nor changes the
    answer to the second. *)
Theorem malformed_line_then_tools_list (bad good ending : string) (e : exn) (fields : dict) :
  one_line bad = true ->
  one_line good = true ->
  ending = nl \/ ending = EmptyString /\ good <> EmptyString ->
  json_loads (strip (bad ++ nl)) = Raised e ->
  json_loads (strip (good ++ ending)) = Returned (JObj fields) ->
  lookup fields "method" = Some (JStr "tools/list") ->
  main (bad ++ nl ++ good ++ ending) =
  Some ([ json_dumps (create_error_response JNull (-32700) "Parse error");
          json_dumps
            (create_response (field fields "id")
               (JObj [ ("tools",
                        JArr [ tool_spec "echoserver"
                                 "Reply to a message with its echo (the message itself)"
                                 "msg" "Message to reply";
                               tool_spec "chesscomProfileFollowers"
                                 "Get a chess.com player followers"
                                 "username" "Chess.com username" ]) ])) ],
        []).
Proof.
  intros Hbad Hgood Hend Hfirst Hsecond Hm.
  assert (Hsplit : readline (good ++ ending) = (good ++ ending, EmptyString)
                   /\ good ++ ending <> EmptyString).
  { destruct Hend as [-> | [-> Hne]].
    - split.
      + exact (readline_terminated good EmptyString Hgood).
      + destruct good; discriminate.
    - replace (good ++ EmptyString) with good by (clear; induction good; cbn; congruence).
      split; [now apply readline_unterminated | assumption]. }
  destruct Hsplit as [Hrl Hne].
  apply main_loop_more_fuel with (fuel := 3%nat).
  - cbn [main_loop].
    rewrite (readline_terminated bad (good ++ ending) Hbad).
    destruct (bad ++ nl) as [|c line] eqn:Hline.
    { destruct bad; discriminate. }
    rewrite (iteration_undecodable _ e [] Hfirst).
    rewrite Hrl.
    destruct (good ++ ending) as [|c' line'] eqn:Hline'; [contradiction|].
    rewrite (iteration_tools_list _ fields [] Hsecond Hm).
    reflexivity.
  - rewrite !string_length_app.
    assert (0 < String.length (good ++ ending))%nat
      by (destruct (good ++ ending); [contradiction | cbn; lia]).
    rewrite string_length_app in H. cbn. lia.
Qed.

End WithWorld.
End Session.

(* ================================================================== *)
(** ** The server at work on the sample traffic *)

Module Runs.
Import Py Eff Server Props SampleRuntime Transcript.

(** The sample decoder reads the recorded lines as the requests above. *)
Example loads_recorded_lines :
  sample_loads initialize_line = Returned (JObj initialize_request)
  /\ sample_loads tools_list_line = Returned (JObj tools_list_request)
  /\ sample_loads echo_line = Returned (JObj (echo_request "Hi"))
  /\ sample_loads lookup_line = Returned (JObj (lookup_request "jyassgt")).
Proof. repeat split; reflexivity. Qed.

(** C1, as stated, fails: the line [[1]] decodes to a list, on which
    [request.get] raises inside the [try] and again inside the [except]
    arm, so [handle_jsonrpc] raises instead of returning an envelope. *)
Lemma handle_jsonrpc_raises_on_non_object :
  sample_loads "[1]" = Returned (JArr [JInt 1])
  /\ handle_jsonrpc (rt := sample) (net := unreachable) (JArr [JInt 1]) [] =
     (Raised (AttributeError "list" "get"), [])
  /\ ~ exists response sent',
         handle_jsonrpc (rt := sample) (net := unreachable) (JArr [JInt 1]) [] =
         (Returned response, sent').
Proof.
  split; [reflexivity|]. split; [reflexivity|].
  intros (response & sent' & H). discriminate H.
Qed.

(** The session loop reports that raise as a parse error. *)
Example non_object_line_is_parse_error :
  main (rt := sample) (net := unreachable) ("[1]" ++ nl) = Some ([parse_error_text], []).
Proof. reflexivity. Qed.

(** C2 at a message with quotes, a backslash and a line break, and at the
    empty message. *)
Lemma echo_returns_msg_witness :
  handle_jsonrpc (rt := sample) (net := unreachable) (JObj (echo_request tricky)) [] =
    (Returned (JObj [ ("jsonrpc", JStr "2.0"); ("id", JInt 23);
                      ("result",
                       JObj [ ("content",
                               JArr [ JObj [ ("type", JStr "text");
                                             ("text", JStr tricky) ] ]) ]) ]), [])
  /\ handle_jsonrpc (rt := sample) (net := unreachable) (JObj (echo_request "")) [] =
    (Returned (JObj [ ("jsonrpc", JStr "2.0"); ("id", JInt 23);
                      ("result",
                       JObj [ ("content",
                               JArr [ JObj [ ("type", JStr "text");
                                             ("text", JStr "") ] ]) ]) ]), []).
Proof.
  split.
  - apply (Dispatcher.echo_returns_msg (echo_request tricky)
             [ ("name", JStr "echoserver"); ("arguments", JObj [ ("msg", JStr tricky) ]) ]
             [ ("msg", JStr tricky) ] tricky []); reflexivity.
  - apply (Dispatcher.echo_returns_msg (echo_request "")
             [ ("name", JStr "echoserver"); ("arguments", JObj [ ("msg", JStr "") ]) ]
             [ ("msg", JStr "") ] "" []); reflexivity.
Defined.

(** The same message survives the codec on the way in and on the way out. *)
Example echo_round_trip :
  let line := sample_dumps (JObj (echo_request tricky)) in
  exists text,
    main (rt := sample) (net := unreachable) (line ++ nl) = Some ([text], [])
    /\ sample_loads text =
       Returned (create_response (JInt 23) (text_content (JStr tricky))).
Proof. eexists. split; reflexivity. Qed.

(** C3 at the four failures: no connection, timeout, status 404, and a
    body that is not JSON. *)
Lemma lookup_failure_folding_witness :
  let not_found :=
    Returned (JObj [ ("jsonrpc", JStr "2.0"); ("id", JInt 23);
                     ("error", JObj [ ("code", JInt (-1));
                                      ("message", JStr "Chess.com user profile not found") ]) ]) in
  fst (handle_jsonrpc (rt := sample) (net := unreachable)
         (JObj (lookup_request "alice")) []) = not_found
  /\ fst (handle_jsonrpc (rt := sample) (net := silent)
            (JObj (lookup_request "alice")) []) = not_found
  /\ fst (handle_jsonrpc (rt := sample) (net := answering 404 (dq "{'code': 0}"))
            (JObj (lookup_request "alice")) []) = not_found
  /\ fst (handle_jsonrpc (rt := sample) (net := answering 200 "<html>")
            (JObj (lookup_request "alice")) []) = not_found.
Proof.
  pose (params := [ ("name", JStr "chesscomProfileFollowers");
                    ("arguments", JObj [ ("username", JStr "alice") ]) ]).
  refine (conj _ (conj _ (conj _ _))).
  - apply (Dispatcher.lookup_failure_folding (rt := sample) (net := unreachable)
             (lookup_request "alice") params [] (profile_get "alice")); try reflexivity.
    apply get_raised.
  - apply (Dispatcher.lookup_failure_folding (rt := sample) (net := silent)
             (lookup_request "alice") params [] (profile_get "alice")); try reflexivity.
    apply get_raised.
  - apply (Dispatcher.lookup_failure_folding (rt := sample)
             (net := answering 404 (dq "{'code': 0}"))
             (lookup_request "alice") params [] (profile_get "alice")); try reflexivity.
    apply status_not_success. reflexivity.
  - apply (Dispatcher.lookup_failure_folding (rt := sample) (net := answering 200 "<html>")
             (lookup_request "alice") params [] (profile_get "alice")); try reflexivity.
    apply (body_malformed _ (LibraryError "JSONDecodeError" "Expecting value")). reflexivity.
Defined.

(** C4 at the line [oops] followed by the recorded [tools/list] line. *)
Lemma malformed_line_then_tools_list_witness :
  main (rt := sample) (net := unreachable) ("oops" ++ nl ++ tools_list_line ++ nl) =
  Some ([parse_error_text; tools_list_text], []).
Proof.
  apply (Session.malformed_line_then_tools_list (rt := sample) (net := unreachable)
           "oops" tools_list_line nl
           (LibraryError "JSONDecodeError" "Expecting value") tools_list_request);
    try reflexivity.
  left. reflexivity.
Defined.

(** The same when the input ends without a final line break. *)
Example malformed_line_then_unterminated_tools_list :
  main (rt := sample) (net := unreachable) ("{" ++ nl ++ tools_list_line) =
  Some ([parse_error_text; tools_list_text], []).
Proof. reflexivity. Qed.

(** C5, as stated, fails: with [arguments] the empty object, [msg] is
    missing and the call succeeds, its text being null. *)
Lemma echo_without_msg_succeeds :
  let params := [ ("name", JStr "echoserver"); ("arguments", JObj []) ] in
  let answer := fst (handle_jsonrpc (rt := sample) (net := unreachable)
                       (JObj (call (JInt 23) params)) []) in
  lookup [] "msg" = None
  /\ answer = Returned (JObj [ ("jsonrpc", JStr "2.0"); ("id", JInt 23);
                               ("result",
                                JObj [ ("content",
                                        JArr [ JObj [ ("type", JStr "text");
                                                      ("text", JNull) ] ]) ]) ])
  /\ forall message, answer <> Returned (JObj [ ("jsonrpc", JStr "2.0"); ("id", JInt 23);
                                                ("error", JObj [ ("code", JInt (-32603));
                                                                 ("message", JStr message) ]) ]).
Proof.
  split; [reflexivity|]. split; [reflexivity|].
  intros message H. discriminate H.
Qed.

(** C5 (amended) at the three shapes of [arguments]: an object without
    [msg], no [arguments] at all, and [arguments] a string. *)
Lemma echo_fails_iff_arguments_not_object_witness :
  handle_jsonrpc (rt := sample) (net := unreachable)
    (JObj (call (JInt 23) [ ("name", JStr "echoserver"); ("arguments", JObj []) ])) [] =
    (Returned (JObj [ ("jsonrpc", JStr "2.0"); ("id", JInt 23);
                      ("result",
                       JObj [ ("content",
                               JArr [ JObj [ ("type", JStr "text");
                                             ("text", JNull) ] ]) ]) ]), [])
  /\ handle_jsonrpc (rt := sample) (net := unreachable)
    (JObj (call (JInt 23) [ ("name", JStr "echoserver") ])) [] =
    (Returned (JObj [ ("jsonrpc", JStr "2.0"); ("id", JInt 23);
                      ("error", JObj [ ("code", JInt (-32603));
                                       ("message", JStr "'NoneType' object has no attribute 'get'") ]) ]), [])
  /\ handle_jsonrpc (rt := sample) (net := unreachable)
    (JObj (call (JInt 23) [ ("name", JStr "echoserver"); ("arguments", JStr "Hi") ])) [] =
    (Returned (JObj [ ("jsonrpc", JStr "2.0"); ("id", JInt 23);
                      ("error", JObj [ ("code", JInt (-32603));
                                       ("message", JStr "'str' object has no attribute 'get'") ]) ]), []).
Proof.
  refine (conj _ (conj _ _)).
  - apply (Dispatcher.echo_fails_iff_arguments_not_object
             (call (JInt 23) [ ("name", JStr "echoserver"); ("arguments", JObj []) ])
             [ ("name", JStr "echoserver"); ("arguments", JObj []) ] []); reflexivity.
  - apply (Dispatcher.echo_fails_iff_arguments_not_object
             (call (JInt 23) [ ("name", JStr "echoserver") ])
             [ ("name", JStr "echoserver") ] []); reflexivity.
  - apply (Dispatcher.echo_fails_iff_arguments_not_object
             (call (JInt 23) [ ("name", JStr "echoserver"); ("arguments", JStr "Hi") ])
             [ ("name", JStr "echoserver"); ("arguments", JStr "Hi") ] []); reflexivity.
Defined.

(** C6, as stated, fails in its second half: when the collaborator
    returns the empty object, [followers] is absent and the answer is the
    error envelope with code -1, not -32603. *)
Lemma lookup_empty_profile_is_not_found :
  let answer := fst (handle_jsonrpc (rt := sample) (net := answering 200 "{}")
                       (JObj (lookup_request "alice")) []) in
  sample_loads "{}" = Returned (JObj [])
  /\ lookup [] "followers" = None
  /\ answer = Returned (JObj [ ("jsonrpc", JStr "2.0"); ("id", JInt 23);
                               ("error", JObj [ ("code", JInt (-1));
                                                ("message", JStr "Chess.com user profile not found") ]) ])
  /\ forall message, answer <> Returned (JObj [ ("jsonrpc", JStr "2.0"); ("id", JInt 23);
                                                ("error", JObj [ ("code", JInt (-32603));
                                                                 ("message", JStr message) ]) ]).
Proof.
  split; [reflexivity|]. split; [reflexivity|]. split; [reflexivity|].
  intros message H. discriminate H.
Qed.

(** C6 (amended) for the user [alice]: a profile with [followers] 42
    among other fields, and a profile without [followers]. *)
Lemma lookup_followers_witness :
  fst (handle_jsonrpc (rt := sample)
         (net := answering 200 (dq "{'player_id': 7, 'followers': 42, 'status': 'basic'}"))
         (JObj (lookup_request "alice")) []) =
    Returned (JObj [ ("jsonrpc", JStr "2.0"); ("id", JInt 23);
                     ("result",
                      JObj [ ("content",
                              JArr [ JObj [ ("type", JStr "text");
                                            ("text", JStr "42") ] ]) ]) ])
  /\ fst (handle_jsonrpc (rt := sample)
            (net := answering 200 (dq "{'player_id': 7, 'status': 'basic'}"))
            (JObj (lookup_request "alice")) []) =
    Returned (JObj [ ("jsonrpc", JStr "2.0"); ("id", JInt 23);
                     ("error", JObj [ ("code", JInt (-32603));
                                      ("message", JStr "'followers'") ]) ]).
Proof.
  pose (params := [ ("name", JStr "chesscomProfileFollowers");
                    ("arguments", JObj [ ("username", JStr "alice") ]) ]).
  split.
  - apply (Dispatcher.lookup_followers (rt := sample)
             (net := answering 200 (dq "{'player_id': 7, 'followers': 42, 'status': 'basic'}"))
             (lookup_request "alice") params [] (profile_get "alice")
             {| status_code := 200;
                status_error := LibraryError "HTTPStatusError" "status 200";
                json_body := Returned (JObj [ ("player_id", JInt 7); ("followers", JInt 42);
                                              ("status", JStr "basic") ]) |}
             [ ("player_id", JInt 7); ("followers", JInt 42); ("status", JStr "basic") ]);
      try reflexivity.
    discriminate.
  - apply (Dispatcher.lookup_followers (rt := sample)
             (net := answering 200 (dq "{'player_id': 7, 'status': 'basic'}"))
             (lookup_request "alice") params [] (profile_get "alice")
             {| status_code := 200;
                status_error := LibraryError "HTTPStatusError" "status 200";
                json_body := Returned (JObj [ ("player_id", JInt 7); ("status", JStr "basic") ]) |}
             [ ("player_id", JInt 7); ("status", JStr "basic") ]);
      try reflexivity.
    discriminate.
Defined.

(** C7 at the recorded [initialize] request. *)
Lemma initialize_response_witness :
  handle_jsonrpc (rt := sample) (net := unreachable) (JObj initialize_request) [] =
  (Returned
     (create_response (JInt 1)
        (JObj [ ("protocolVersion", JStr "2024-11-05");
                ("capabilities", JObj [ ("tools", JObj []) ]);
                ("serverInfo", JObj [ ("name", JStr "echoserver");
                                      ("version", JStr "1.0.0") ]) ])),
   []).
Proof.
  apply (Dispatcher.initialize_response (rt := sample) (net := unreachable)
           initialize_request []).
  reflexivity.
Defined.

(** C8 at the recorded [tools/list] request, asked twice. *)
Lemma tools_list_response_witness :
  handle_jsonrpc (rt := sample) (net := unreachable) (JObj tools_list_request) [] =
    (Returned (JObj [ ("jsonrpc", JStr "2.0"); ("id", JInt 2);
                      ("result", JObj [ ("tools", JArr catalog) ]) ]), [])
  /\ bind (handle_jsonrpc (rt := sample) (net := unreachable) (JObj tools_list_request))
       (fun first => bind (handle_jsonrpc (rt := sample) (net := unreachable)
                             (JObj tools_list_request))
          (fun second => ret (first, second))) [] =
    (Returned (JObj [ ("jsonrpc", JStr "2.0"); ("id", JInt 2);
                      ("result", JObj [ ("tools", JArr catalog) ]) ],
               JObj [ ("jsonrpc", JStr "2.0"); ("id", JInt 2);
                      ("result", JObj [ ("tools", JArr catalog) ]) ]), []).
Proof.
  destruct (Dispatcher.tools_list_response (rt := sample) (net := unreachable)
              tools_list_request [] eq_refl) as [once twice].
  split.
  - exact once.
  - exact (twice tools_list_request eq_refl).
Defined.

(** C9 at a tool that does not exist, with and without arguments. *)
Lemma unknown_tool_witness :
  handle_jsonrpc (rt := sample) (net := unreachable)
    (JObj (call (JStr "r1") [ ("name", JStr "shout"); ("arguments", JArr [JInt 1]) ])) [] =
    (Returned (JObj [ ("jsonrpc", JStr "2.0"); ("id", JStr "r1");
                      ("error", JObj [ ("code", JInt (-32601));
                                       ("message", JStr "tool not found") ]) ]), [])
  /\ handle_jsonrpc (rt := sample) (net := unreachable)
    (JObj [ ("method", JStr "tools/call"); ("id", JStr "r2") ]) [] =
    (Returned (JObj [ ("jsonrpc", JStr "2.0"); ("id", JStr "r2");
                      ("error", JObj [ ("code", JInt (-32601));
                                       ("message", JStr "tool not found") ]) ]), []).
Proof.
  split.
  - apply (Dispatcher.unknown_tool (rt := sample) (net := unreachable)
             (call (JStr "r1") [ ("name", JStr "shout"); ("arguments", JArr [JInt 1]) ])
             [ ("name", JStr "shout"); ("arguments", JArr [JInt 1]) ] []); reflexivity.
  - apply (Dispatcher.unknown_tool (rt := sample) (net := unreachable)
             [ ("method", JStr "tools/call"); ("id", JStr "r2") ] [] []); reflexivity.
Defined.

(** C10 at a 200 answer whose body is the empty object. *)
Lemma lookup_falsy_data_is_not_found_witness :
  fst (handle_jsonrpc (rt := sample) (net := answering 200 "{}")
         (JObj (lookup_request "alice")) []) =
  Returned (JObj [ ("jsonrpc", JStr "2.0"); ("id", JInt 23);
                   ("error", JObj [ ("code", JInt (-1));
                                    ("message", JStr "Chess.com user profile not found") ]) ]).
Proof.
  apply (Dispatcher.lookup_falsy_data_is_not_found (rt := sample) (net := answering 200 "{}")
           (lookup_request "alice")
           [ ("name", JStr "chesscomProfileFollowers");
             ("arguments", JObj [ ("username", JStr "alice") ]) ]
           [] (profile_get "alice")
           {| status_code := 200;
              status_error := LibraryError "HTTPStatusError" "status 200";
              json_body := Returned (JObj []) |}
           (JObj [])); reflexivity.
Defined.

(** The recorded session, line by line, against a service that knows the
    player. *)
Example recorded_session :
  main (rt := sample) (net := answering 200 (dq "{'followers': 3, 'username': 'jyassgt'}"))
    (initialize_line ++ nl ++ tools_list_line ++ nl ++ echo_line ++ nl ++ lookup_line ++ nl) =
  Some ([ dq "{'jsonrpc': '2.0', 'id': 1, 'result': {'protocolVersion': '2024-11-05', 'capabilities': {'tools': {}}, 'serverInfo': {'name': 'echoserver', 'version': '1.0.0'}}}";
          tools_list_text;
          dq "{'jsonrpc': '2.0', 'id': 23, 'result': {'content': [{'type': 'text', 'text': 'Hi'}]}}";
          dq "{'jsonrpc': '2.0', 'id': 23, 'result': {'content': [{'type': 'text', 'text': '3'}]}}" ],
        [ profile_get "jyassgt" ]).
Proof. vm_compute. reflexivity. Qed.

End Runs.

(* ================================================================== *)
(** ** Edge behaviour of the dispatcher *)

Module Edges.
Import Py Eff Server Props Dispatcher.

Section WithWorld.
Context {rt : Runtime} {net : Network}.

Lemma eq_str_true (v : json) (literal : string) :
  eq_str v literal = true -> v = JStr literal.
Proof.
  destruct v; try discriminate. cbn. intros H.
  apply String.eqb_eq in H. now subst.
Qed.

Lemma eq_str_false (v : json) (literal : string) :
  v <> JStr literal -> eq_str v literal = false.
Proof.
  intros H. destruct (eq_str v literal) eqn:E; [|reflexivity].
  now apply eq_str_true in E.
Qed.

Lemma field_is_bound (d : dict) (key : string) (v : json) :
  field d key = v -> v <> JNull -> lookup d key = Some v.
Proof. unfold field. destruct (lookup d key); [now intros -> | congruence]. Qed.

(** Unfolds the dispatcher at a request whose method is known. *)
Ltac dispatch Hm :=
  unfold handle_jsonrpc, try_except, bind, lift;
  rewrite !get_object, Hm; cbn [eq_str String.eqb Ascii.eqb Bool.eqb].

(** X1. A request object whose method is none of [initialize],
    [tools/list] and [tools/call] (a missing or non-string method
    included) is answered by the error envelope with code -32601 and
    message "method not found", and nothing is asked of the service. *)
Theorem unknown_method (fields : dict) (sent : list Request) :
  field fields "method" <> JStr "initialize" ->
  field fields "method" <> JStr "tools/list" ->
  field fields "method" <> JStr "tools/call" ->
  handle_jsonrpc (JObj fields) sent =
  (Returned (JObj [ ("jsonrpc", JStr "2.0"); ("id", field fields "id");
                    ("error", JObj [ ("code", JInt (-32601));
                                     ("message", JStr "method not found") ]) ]), sent).
Proof.
  intros H1 H2 H3. unfold handle_jsonrpc, try_except, bind, lift.
  rewrite !get_object. fold (field fields "method") (field fields "id").
  rewrite (eq_str_false _ _ H1), (eq_str_false _ _ H2), (eq_str_false _ _ H3).
  reflexivity.
Qed.

(** X2. On a decoded value that is not an object the dispatcher raises:
    [request.get] fails in the body and again in the handler, so an
    [AttributeError] naming the type of the value leaves
    [handle_jsonrpc], and nothing is asked of the service. *)
Theorem non_object_request_raises (request : json) (sent : list Request) :
  is_object request = false ->
  handle_jsonrpc request sent = (Raised (AttributeError (type_name request) "get"), sent).
Proof. destruct request; try discriminate; reflexivity. Qed.

(** X3. A [tools/call] request whose [params] is bound to something that
    is not an object is answered by the fallback: code -32603, with the
    message of the [AttributeError], and nothing is asked of the service. *)
Theorem malformed_params (fields : dict) (params : json) (sent : list Request) :
  lookup fields "method" = Some (JStr "tools/call") ->
  lookup fields "params" = Some params ->
  is_object params = false ->
  handle_jsonrpc (JObj fields) sent =
  (Returned
     (JObj [ ("jsonrpc", JStr "2.0"); ("id", field fields "id");
             ("error", JObj [ ("code", JInt (-32603));
                              ("message",
                               JStr ("'" ++ type_name params ++ "' object has no attribute 'get'")) ]) ]),
   sent).
Proof.
  intros Hm Hp Ho. dispatch Hm. rewrite Hp.
  destruct params; try discriminate; reflexivity.
Qed.

(** Either tool, called with [arguments] missing or not an object. *)
Lemma handle_malformed_arguments (fields params : dict) (name : string)
    (sent : list Request) :
  lookup fields "method" = Some (JStr "tools/call") ->
  lookup fields "params" = Some (JObj params) ->
  lookup params "name" = Some (JStr name) ->
  name = "echoserver" \/ name = "chesscomProfileFollowers" ->
  is_object (field params "arguments") = false ->
  handle_jsonrpc (JObj fields) sent =
  (Returned
     (create_error_response (field fields "id") (-32603)
        ("'" ++ type_name (field params "arguments") ++ "' object has no attribute 'get'")),
   sent).
Proof.
  intros Hm Hp Hn Hname Ho. dispatch Hm. rewrite Hp, !get_object, Hn.
  fold (field params "arguments").
  destruct Hname as [-> | ->]; cbn [eq_str String.eqb Ascii.eqb Bool.eqb];
    destruct (field params "arguments"); try discriminate; reflexivity.
Qed.

(** The echo arm with [arguments] an object. *)
Lemma handle_echo (fields params args : dict) (sent : list Request) :
  lookup fields "method" = Some (JStr "tools/call") ->
  lookup fields "params" = Some (JObj params) ->
  lookup params "name" = Some (JStr "echoserver") ->
  lookup params "arguments" = Some (JObj args) ->
  handle_jsonrpc (JObj fields) sent =
  (Returned (create_response (field fields "id") (text_content (field args "msg"))), sent).
Proof.
  intros Hm Hp Hn Ha. dispatch Hm. rewrite Hp, !get_object, Hn.
  cbn [eq_str String.eqb Ascii.eqb Bool.eqb]. rewrite Ha. reflexivity.
Qed.

(** X4. A call of the lookup tool whose [arguments] is missing or is not
    an object is answered by the fallback, code -32603, before anything is
    asked of the service. *)
Theorem lookup_malformed_arguments (fields params : dict) (sent : list Request) :
  lookup fields "method" = Some (JStr "tools/call") ->
  lookup fields "params" = Some (JObj params) ->
  lookup params "name" = Some (JStr "chesscomProfileFollowers") ->
  is_object (field params "arguments") = false ->
  handle_jsonrpc (JObj fields) sent =
  (Returned
     (JObj [ ("jsonrpc", JStr "2.0"); ("id", field fields "id");
             ("error", JObj [ ("code", JInt (-32603));
                              ("message",
                               JStr ("'" ++ type_name (field params "arguments") ++ "' object has no attribute 'get'")) ]) ]),
   sent).
Proof.
  intros Hm Hp Hn Ho.
  apply (handle_malformed_arguments fields params "chesscomProfileFollowers"); auto.
Qed.

(** The lookup arm with well-formed arguments: one GET, then the answer
    the returned data calls for. *)
Lemma handle_lookup_runs (fields params args : dict) (sent : list Request) :
  lookup fields "method" = Some (JStr "tools/call") ->
  lookup fields "params" = Some (JObj params) ->
  lookup params "name" = Some (JStr "chesscomProfileFollowers") ->
  lookup params "arguments" = Some (JObj args) ->
  exists data,
    make_chess_request (req_url (profile_request args)) sent =
      (Returned data, (sent ++ [profile_request args])%list)
    /\ handle_jsonrpc (JObj fields) sent =
       (Returned (lookup_outcome (field fields "id") data),
        (sent ++ [profile_request args])%list).
Proof.
  intros Hm Hp Hn Ha.
  destruct (make_chess_request_returns (req_url (profile_request args)) sent) as [data Hd].
  exists data. split; [exact Hd|].
  exact (handle_lookup fields params args sent _ data Hm Hp Hn Ha Hd).
Qed.

(** X5. The collaborator call never raises and issues exactly one GET, to
    the given URL with the [User-Agent] and [Accept] headers and a timeout
    of 30.  When that GET comes back with a 2xx status and a body that
    decodes, it returns the decoded body; in every other case (the GET
    raised, another status, a body that does not decode) it returns
    [None]. *)
Theorem make_chess_request_outcome (url : string) (sent : list Request) :
  let r := {| req_url := url;
              req_headers := [ ("User-Agent", "chesscom-app/1.0");
                               ("Accept", "application/json") ];
              req_timeout := 30 |} in
  make_chess_request url sent =
  (Returned
     match client_get sent r with
     | Returned response =>
         if (200 <=? status_code response) && (status_code response <=? 299) then
           match json_body response with
           | Returned data => data
           | Raised _ => JNull
           end
         else JNull
     | Raised _ => JNull
     end,
   (sent ++ [r])%list).
Proof.
  intros r. unfold make_chess_request, try_except, bind, http_get.
  change {| req_url := url;
            req_headers := [ ("User-Agent", USER_AGENT); ("Accept", "application/json") ];
            req_timeout := 30 |} with r.
  destruct (client_get sent r) as [response | e]; [|reflexivity].
  unfold raise_for_status, response_json, lift, ret, raise, is_success.
  destruct ((200 <=? status_code response) && (status_code response <=? 299));
    [|reflexivity].
  destruct (json_body response); reflexivity.
Qed.

(** X6. The lookup tool puts the [username] into the URL as it is, with
    no escaping or validation: for a string [s] the one GET issued is for
    [https://api.chess.com/pub/player/] followed by [s], whatever the
    service then does. *)
Theorem lookup_url_verbatim (fields params args : dict) (s : string) (sent : list Request) :
  lookup fields "method" = Some (JStr "tools/call") ->
  lookup fields "params" = Some (JObj params) ->
  lookup params "name" = Some (JStr "chesscomProfileFollowers") ->
  lookup params "arguments" = Some (JObj args) ->
  lookup args "username" = Some (JStr s) ->
  snd (handle_jsonrpc (JObj fields) sent) =
  (sent ++ [ {| req_url := "https://api.chess.com/pub/player/" ++ s;
                req_headers := [ ("User-Agent", "chesscom-app/1.0");
                                 ("Accept", "application/json") ];
                req_timeout := 30 |} ])%list.
Proof.
  intros Hm Hp Hn Ha Hu.
  destruct (handle_lookup_runs fields params args sent Hm Hp Hn Ha) as (data & _ & ->).
  cbn [snd]. unfold profile_request, field. rewrite Hu. reflexivity.
Qed.

(** X7. When the service answers the lookup with a 2xx status and a body
    that decodes to a truthy value that is not an object (a non-empty
    list or string, a non-zero number, [true]), subscripting it raises and
    the answer is the fallback error, code -32603. *)
Theorem lookup_unsubscriptable_data (fields params : dict) (sent : list Request)
    (r : Request) (response : Response) (data : json) :
  lookup fields "method" = Some (JStr "tools/call") ->
  lookup fields "params" = Some (JObj params) ->
  lookup params "name" = Some (JStr "chesscomProfileFollowers") ->
  snd (handle_jsonrpc (JObj fields) sent) = (sent ++ [r])%list ->
  client_get sent r = Returned response ->
  is_success response = true ->
  json_body response = Returned data ->
  truthy data = true ->
  is_object data = false ->
  exists message,
    fst (handle_jsonrpc (JObj fields) sent) =
    Returned (JObj [ ("jsonrpc", JStr "2.0"); ("id", field fields "id");
                     ("error", JObj [ ("code", JInt (-32603)); ("message", JStr message) ]) ]).
Proof.
  intros Hm Hp Hn Hr Hg Hs Hb Ht Ho.
  destruct (handle_lookup_asks fields params sent r Hm Hp Hn Hr) as (args & Ha & ->).
  rewrite (handle_lookup fields params args sent
             (sent ++ [profile_request args])%list data Hm Hp Hn Ha).
  - unfold lookup_outcome. rewrite Ht. cbn [negb fst].
    destruct data; try discriminate; cbn; eexists; reflexivity.
  - now apply make_chess_request_data with response.
Qed.

(** Closes [answer] goals once the response is known. *)
Ltac answers :=
  first [ apply answer_result
        | apply answer_error; cbn; tauto ].

(** An answer is an envelope, and its code is one of the dispatcher's. *)
Lemma answer_envelope (id response : json) :
  answer id response ->
  envelope id response
  /\ (error_code response = None
      \/ error_code response = Some (-1)
      \/ error_code response = Some (-32601)
      \/ error_code response = Some (-32603)).
Proof.
  intros [result | code message Hin].
  - split; [apply envelope_result | left; reflexivity].
  - split; [apply envelope_error|].
    cbn in Hin. destruct Hin as [<- | [<- | [<- | []]]]; cbn; auto.
Qed.

(** What the dispatcher does with any request object: it answers, and it
    asks the service at most once, for the lookup tool only. *)
Lemma handle_object_cases (fields : dict) (sent : list Request) :
  exists response,
    answer (field fields "id") response
    /\ (handle_jsonrpc (JObj fields) sent = (Returned response, sent)
        \/ exists params args,
             lookup fields "method" = Some (JStr "tools/call")
             /\ lookup fields "params" = Some (JObj params)
             /\ lookup params "name" = Some (JStr "chesscomProfileFollowers")
             /\ lookup params "arguments" = Some (JObj args)
             /\ handle_jsonrpc (JObj fields) sent =
                (Returned response, (sent ++ [profile_request args])%list)).
Proof.
  destruct (eq_str (field fields "method") "tools/call") eqn:E3.
  2:{ unfold handle_jsonrpc, try_except, bind, lift.
      rewrite !get_object. fold (field fields "method") (field fields "id").
      destruct (eq_str _ "initialize");
        [eexists; split; [|left; reflexivity]; answers|].
      destruct (eq_str _ "tools/list");
        [eexists; split; [|left; reflexivity]; answers|].
      rewrite E3. eexists; split; [|left; reflexivity]; answers. }
  apply eq_str_true in E3. apply field_is_bound in E3 as Hm; [|discriminate].
  destruct (lookup fields "params") as [ps|] eqn:Hp.
  2:{ eexists; split; [|left; dispatch Hm; rewrite Hp; reflexivity]. answers. }
  destruct ps as [| | | | | |params];
    try (eexists; split; [|left; dispatch Hm; rewrite Hp; reflexivity]; answers).
  destruct (eq_str (field params "name") "echoserver") eqn:N1.
  { apply eq_str_true in N1. apply field_is_bound in N1 as Hn; [|discriminate].
    destruct (is_object (field params "arguments")) eqn:Ho.
    - destruct (field params "arguments") as [| | | | | |args] eqn:Ha; try discriminate.
      apply field_is_bound in Ha; [|discriminate].
      eexists; split; [|left; apply (handle_echo fields params args sent Hm Hp Hn Ha)].
      answers.
    - eexists; split;
        [|left; apply (handle_malformed_arguments fields params "echoserver" sent); auto].
      answers. }
  destruct (eq_str (field params "name") "chesscomProfileFollowers") eqn:N2.
  2:{ eexists; split.
      2:{ left. dispatch Hm. rewrite Hp, !get_object. fold (field params "name").
          rewrite N1, N2. reflexivity. }
      answers. }
  apply eq_str_true in N2. apply field_is_bound in N2 as Hn; [|discriminate].
  destruct (is_object (field params "arguments")) eqn:Ho.
  2:{ eexists; split;
        [|left; apply (handle_malformed_arguments fields params
                         "chesscomProfileFollowers" sent); auto].
      answers. }
  destruct (field params "arguments") as [| | | | | |args] eqn:Ha; try discriminate.
  apply field_is_bound in Ha; [|discriminate].
  destruct (handle_lookup_runs fields params args sent Hm Hp Hn Ha) as (data & _ & Hh).
  exists (lookup_outcome (field fields "id") data). split.
  - unfold lookup_outcome. destruct (truthy data); cbn [negb]; [|answers].
    destruct (getitem data "followers"); answers.
  - right. exists params, args. auto.
Qed.

(** X8. Handling a request object asks the service at most once, and
    only for a [tools/call] of [chesscomProfileFollowers] whose
    [arguments] is an object; the GET is then the one for the profile of
    its [username].  Every other request leaves the service alone. *)
Theorem outbound_only_for_lookup (fields : dict) (sent : list Request) :
  snd (handle_jsonrpc (JObj fields) sent) = sent
  \/ exists params args,
       lookup fields "method" = Some (JStr "tools/call")
       /\ lookup fields "params" = Some (JObj params)
       /\ lookup params "name" = Some (JStr "chesscomProfileFollowers")
       /\ lookup params "arguments" = Some (JObj args)
       /\ snd (handle_jsonrpc (JObj fields) sent) = (sent ++ [profile_request args])%list.
Proof.
  destruct (handle_object_cases fields sent)
    as (response & _ & [-> | (params & args & Hm & Hp & Hn & Ha & ->)]).
  - now left.
  - right. exists params, args. auto.
Qed.

(** X9. Whatever the request object, the dispatcher answers with an
    envelope under the id of the request: a result, or an error whose code
    is -1, -32601 or -32603; the parse-error code -32700 never comes from
    it. *)
Theorem dispatcher_codes (fields : dict) (sent : list Request) :
  exists response,
    fst (handle_jsonrpc (JObj fields) sent) = Returned response
    /\ envelope (field fields "id") response
    /\ (error_code response = None
        \/ error_code response = Some (-1)
        \/ error_code response = Some (-32601)
        \/ error_code response = Some (-32603)).
Proof.
  destruct (handle_object_cases fields sent) as (response & Hans & Hrun).
  exists response. split.
  - destruct Hrun as [-> | (params & args & _ & _ & _ & _ & ->)]; reflexivity.
  - now apply answer_envelope.
Qed.

(** X10. The tools [tools/list] advertises are the tools [tools/call]
    accepts: a call naming any entry of the registry is answered with a
    result or with an error of code -1 or -32603, never with "tool not
    found" (code -32601), whatever its arguments and whatever the service
    does. *)
Theorem advertised_tools_are_callable (fields params spec : dict) (name : string)
    (sent : list Request) :
  lookup fields "method" = Some (JStr "tools/call") ->
  lookup fields "params" = Some (JObj params) ->
  lookup params "name" = Some (JStr name) ->
  In (JObj spec) (values tools) ->
  lookup spec "name" = Some (JStr name) ->
  exists response,
    fst (handle_jsonrpc (JObj fields) sent) = Returned response
    /\ (error_code response = None
        \/ error_code response = Some (-1)
        \/ error_code response = Some (-32603)).
Proof.
  intros Hm Hp Hn Hin Hs.
  assert (Hname : name = "echoserver" \/ name = "chesscomProfileFollowers").
  { cbn in Hin. destruct Hin as [H | [H | []]]; injection H as <-;
      cbn in Hs; injection Hs as <-; auto. }
  destruct (is_object (field params "arguments")) eqn:Ho.
  2:{ rewrite (handle_malformed_arguments fields params name sent Hm Hp Hn Hname Ho).
      eexists. split; [reflexivity|]. right. right. reflexivity. }
  destruct (field params "arguments") as [| | | | | |args] eqn:Ha; try discriminate.
  apply field_is_bound in Ha; [|discriminate].
  destruct Hname as [-> | ->].
  - rewrite (handle_echo fields params args sent Hm Hp Hn Ha).
    eexists. split; [reflexivity|]. left. reflexivity.
  - destruct (handle_lookup_runs fields params args sent Hm Hp Hn Ha) as (data & _ & ->).
    eexists. split; [reflexivity|]. unfold lookup_outcome.
    destruct (truthy data); cbn [negb]; [|right; left; reflexivity].
    destruct (getitem data "followers"); [left | right; right]; reflexivity.
Qed.

End WithWorld.
End Edges.

(* ================================================================== *)
(** ** The session loop, line by line *)

Module Stream.
Import Py Eff Server Props Dispatcher Session Edges.

Lemma readline_cons (c : ascii) (rest : string) :
  readline (String c rest) =
  if Ascii.eqb c newline then (String c EmptyString, rest)
  else (String c (fst (readline rest)), snd (readline rest)).
Proof.
  cbn [readline]. destruct (Ascii.eqb c newline); [reflexivity|].
  destruct (readline rest); reflexivity.
Qed.

(** [readline] yields the first line and leaves the others. *)
Lemma lines_readline (c : ascii) (rest : string) :
  fst (readline (String c rest)) <> EmptyString
  /\ lines (String c rest) =
     fst (readline (String c rest)) :: lines (snd (readline (String c rest))).
Proof.
  revert c. induction rest as [|c' rest IH]; intros c; rewrite readline_cons; cbn [lines].
  - destruct (Ascii.eqb c newline); cbn; split; congruence.
  - destruct (Ascii.eqb c newline); [cbn [fst snd]; split; [discriminate | reflexivity]|].
    destruct (IH c') as [_ Hl]. cbn [lines] in Hl. rewrite Hl.
    cbn [fst snd]. split; [discriminate | reflexivity].
Qed.

(** Only the empty text has no line. *)
Lemma lines_nil (s : string) : lines s = [] -> s = EmptyString.
Proof.
  destruct s as [|c rest]; [reflexivity|].
  intros H. destruct (lines_readline c rest) as [_ Hl]. congruence.
Qed.

(** The lines of a text, put end to end, are the text. *)
Lemma lines_concat (s : string) : fold_right append EmptyString (lines s) = s.
Proof.
  induction s as [|c rest IH]; [reflexivity|].
  cbn [lines]. destruct (Ascii.eqb c newline).
  - cbn. now rewrite IH.
  - destruct (lines rest) as [|line others] eqn:Hl.
    + apply lines_nil in Hl. now subst.
    + cbn in *. now rewrite IH.
Qed.

(** Lines that end with a line break are never joined with what follows. *)
Lemma lines_app (a b : string) :
  lines (a ++ nl ++ b) = (lines (a ++ nl) ++ lines b)%list.
Proof.
  induction a as [|c a IH]; [reflexivity|].
  cbn [append lines]. destruct (Ascii.eqb c newline).
  - cbn [app]. now f_equal.
  - rewrite IH. destruct (lines (a ++ nl)) as [|line others] eqn:Hl; [|reflexivity].
    apply lines_nil in Hl. destruct a; discriminate.
Qed.

(** A text without line break, ended by one, is one line. *)
Lemma lines_single (body : string) :
  one_line body = true -> lines (body ++ nl) = [body ++ nl].
Proof.
  induction body as [|c body IH]; [reflexivity|].
  cbn [one_line append lines]. intros H. apply andb_prop in H as [Hc Hb].
  apply negb_true_iff in Hc. rewrite Hc, (IH Hb). reflexivity.
Qed.

Lemma lstrip_blank (pad : string) : blank pad = true -> lstrip pad = EmptyString.
Proof.
  induction pad as [|c pad IH]; [reflexivity|].
  cbn. intros H. apply andb_prop in H as [-> Hb]. auto.
Qed.

Lemma lstrip_pad (pad s : string) : blank pad = true -> lstrip (pad ++ s) = lstrip s.
Proof.
  induction pad as [|c pad IH]; [reflexivity|].
  cbn. intros H. apply andb_prop in H as [-> Hb]. auto.
Qed.

Lemma rstrip_blank (pad : string) : blank pad = true -> rstrip pad = EmptyString.
Proof.
  induction pad as [|c pad IH]; [reflexivity|].
  cbn. intros H. apply andb_prop in H as [-> Hb]. now rewrite IH.
Qed.

Lemma rstrip_pad (s pad : string) : blank pad = true -> rstrip (s ++ pad) = rstrip s.
Proof.
  intros Hb. induction s as [|c s IH]; cbn.
  - now apply rstrip_blank.
  - now rewrite IH.
Qed.

(** [strip] removes whitespace put around a text. *)
Lemma strip_pad (before s after : string) :
  blank before = true -> blank after = true ->
  strip (before ++ s ++ after) = strip s.
Proof.
  intros Hb Ha. unfold strip. rewrite (lstrip_pad before _ Hb).
  induction s as [|c s IH].
  - cbn [append]. now rewrite (lstrip_blank after Ha).
  - cbn [append lstrip]. destruct (isspace c); [exact IH|].
    exact (rstrip_pad (String c s) after Ha).
Qed.

Section WithWorld.
Context {rt : Runtime} {net : Network}.

(** The loop is the fold of its iterations over the lines of the input. *)
Lemma main_loop_serve (fuel : nat) :
  forall (stdin : string) (stdout : list string) (sent : list Request),
    (String.length stdin < fuel)%nat ->
    main_loop fuel stdin stdout sent = Some (serve (lines stdin) stdout sent).
Proof.
  induction fuel as [|fuel IH]; intros stdin stdout sent Hlt; [lia|].
  destruct stdin as [|c rest]; [reflexivity|].
  cbn [main_loop].
  destruct (lines_readline c rest) as [Hne Hl].
  pose proof (readline_length (String c rest)) as Hlen.
  rewrite Hl. destruct (readline (String c rest)) as [line unread].
  cbn [fst snd] in *. destruct line as [|c0 line]; [contradiction|].
  cbn [serve]. destruct (iteration (String c0 line) sent) as [text sent'].
  apply IH. cbn in Hlen, Hlt. lia.
Qed.

Lemma main_serve (stdin : string) :
  main stdin = Some (serve (lines stdin) [] []).
Proof. apply main_loop_serve. lia. Qed.

(** What one iteration prints and asks. *)
Lemma iteration_cases (line : string) (sent : list Request) :
  (exists response,
     fst (iteration line sent) = json_dumps response
     /\ match json_loads (strip line) with
        | Returned (JObj fields) => answer (field fields "id") response
        | _ => response = create_error_response JNull (-32700) "Parse error"
        end)
  /\ (snd (iteration line sent) = sent
      \/ exists r, snd (iteration line sent) = (sent ++ [r])%list).
Proof.
  unfold iteration, bind, lift.
  destruct (json_loads (strip line)) as [request|e].
  2:{ split; [exists error_response; split; reflexivity | now left]. }
  destruct (is_object request) eqn:Ho.
  - destruct request as [| | | | | |fields]; try discriminate.
    destruct (handle_object_cases fields sent)
      as (response & Hans & [-> | (params & args & _ & _ & _ & _ & ->)]).
    + split; [now exists response | now left].
    + split; [now exists response | right; eexists; reflexivity].
  - destruct request; try discriminate;
      (split; [exists error_response; split; reflexivity | now left]).
Qed.

Lemma serve_length (pending : list string) :
  forall (stdout : list string) (sent : list Request),
    length (fst (serve pending stdout sent)) = (length stdout + length pending)%nat
    /\ (length (snd (serve pending stdout sent)) <= length sent + length pending)%nat.
Proof.
  induction pending as [|line others IH]; intros stdout sent; cbn [serve].
  - cbn. lia.
  - destruct (iteration_cases line sent) as [_ Hs].
    destruct (iteration line sent) as [text sent']. cbn [snd] in Hs.
    destruct (IH (stdout ++ [text])%list sent') as [Hout Hsent].
    rewrite Hout, List.length_app. cbn [length].
    destruct Hs as [-> | [r ->]]; [|rewrite List.length_app in Hsent; cbn in Hsent]; lia.
Qed.

(** Serving extends what was printed and what was asked; it rewrites
    neither. *)
Lemma serve_extends (pending : list string) :
  forall (stdout : list string) (sent : list Request),
    exists texts requests,
      serve pending stdout sent = ((stdout ++ texts)%list, (sent ++ requests)%list).
Proof.
  induction pending as [|line others IH]; intros stdout sent; cbn [serve].
  - exists [], []. now rewrite !app_nil_r.
  - destruct (iteration_cases line sent) as [_ Hs].
    destruct (iteration line sent) as [text sent']. cbn [snd] in Hs.
    destruct (IH (stdout ++ [text])%list sent') as (texts & requests & ->).
    exists (text :: texts).
    destruct Hs as [-> | [r ->]].
    + exists requests. now rewrite <- app_assoc.
    + exists (r :: requests). now rewrite <- !app_assoc.
Qed.

Lemma serve_app (first others : list string) :
  forall (stdout : list string) (sent : list Request),
    serve (first ++ others) stdout sent =
    serve others (fst (serve first stdout sent)) (snd (serve first stdout sent)).
Proof.
  induction first as [|line first IH]; intros stdout sent; cbn [serve app fst snd].
  - reflexivity.
  - destruct (iteration line sent) as [text sent']. apply IH.
Qed.

(** The text printed for the [n]-th line is the one its iteration gives. *)
Lemma serve_nth (pending : list string) :
  forall (stdout : list string) (sent : list Request) (n : nat) (line : string),
    nth_error pending n = Some line ->
    exists sent_n,
      nth_error (fst (serve pending stdout sent)) (length stdout + n) =
      Some (fst (iteration line sent_n)).
Proof.
  induction pending as [|first others IH]; intros stdout sent n line Hn.
  - destruct n; discriminate.
  - cbn [serve]. destruct (iteration first sent) as [text sent'] eqn:Hit.
    destruct n as [|n].
    + injection Hn as <-. exists sent.
      destruct (serve_extends others (stdout ++ [text])%list sent')
        as (texts & requests & ->).
      cbn [fst]. rewrite Nat.add_0_r, <- app_assoc.
      rewrite nth_error_app2 by lia. rewrite Nat.sub_diag, Hit. reflexivity.
    + cbn [nth_error] in Hn.
      destruct (IH (stdout ++ [text])%list sent' n line Hn) as [sent_n H].
      exists sent_n. rewrite <- H, List.length_app. cbn [length]. f_equal. lia.
Qed.

(** X11. On every input the session loop ends, having printed exactly
    one text per line of the input (blank lines and a last line without
    line break included) and having asked the service at most once per
    line. *)
Theorem session_one_text_per_line (stdin : string) :
  exists stdout sent,
    main stdin = Some (stdout, sent)
    /\ length stdout = length (lines stdin)
    /\ (length sent <= length (lines stdin))%nat.
Proof.
  rewrite main_serve.
  destruct (serve_length (lines stdin) [] []) as [Hout Hsent].
  destruct (serve (lines stdin) [] []) as [stdout sent].
  exists stdout, sent. cbn in *. auto.
Qed.

(** X12. Texts come out in the order of the lines, and the text for a
    line that does not decode to an object (undecodable, or a JSON list,
    string, number, boolean or null) is the error envelope with code
    -32700 and id null, wherever the line stands in the input. *)
Theorem session_parse_error_lines (stdin : string) (n : nat) (line : string) :
  nth_error (lines stdin) n = Some line ->
  (forall fields, json_loads (strip line) <> Returned (JObj fields)) ->
  exists stdout sent,
    main stdin = Some (stdout, sent)
    /\ nth_error stdout n =
       Some (json_dumps (create_error_response JNull (-32700) "Parse error")).
Proof.
  intros Hn Hbad. rewrite main_serve.
  destruct (serve_nth (lines stdin) [] [] n line Hn) as [sent_n Hnth].
  destruct (serve (lines stdin) [] []) as [stdout sent].
  exists stdout, sent. split; [reflexivity|].
  cbn [fst length Nat.add] in Hnth. rewrite Hnth. f_equal.
  destruct (iteration_cases line sent_n) as [(response & -> & Hr) _].
  destruct (json_loads (strip line)) as [[| | | | | |fields]|e]; try now subst.
  now elim (Hbad fields).
Qed.


(** X14. What has been answered stays answered: the texts printed and the
    requests issued for an input that ends with a line break are a prefix
    of those for the same input followed by anything more. *)
Theorem session_prefix_stable (a b : string) (stdout : list string) (sent : list Request) :
  main (a ++ nl) = Some (stdout, sent) ->
  exists texts requests,
    main (a ++ nl ++ b) = Some ((stdout ++ texts)%list, (sent ++ requests)%list).
Proof.
  rewrite !main_serve, lines_app, serve_app. intros H. injection H as H.
  rewrite H. cbn [fst snd].
  destruct (serve_extends (lines b) stdout sent) as (texts & requests & ->).
  now exists texts, requests.
Qed.

(** X15. Whitespace around a request on its line does not matter:
    indentation before it and spaces, tabs or a carriage return after it
    (a CRLF line ending) are stripped before decoding, so the line is
    answered as the bare request is. *)
Theorem session_strips_lines (before body after : string) :
  one_line before = true -> one_line body = true -> one_line after = true ->
  blank before = true -> blank after = true ->
  main (before ++ body ++ after ++ nl) = main (body ++ nl).
Proof.
  intros Hlb Hl Hla Hb Ha.
  assert (Hline : one_line (before ++ body ++ after) = true).
  { clear Hb Ha. induction before as [|c before IH]; cbn in *.
    - induction body as [|c body IH]; cbn in *; [assumption|].
      apply andb_prop in Hl as [-> Hl]. auto.
    - apply andb_prop in Hlb as [-> Hlb]. auto. }
  assert (Hshape : before ++ body ++ after ++ nl = (before ++ body ++ after) ++ nl).
  { clear. induction before as [|c before IH]; cbn; [|now rewrite IH].
    induction body as [|c body IH]; cbn; [reflexivity | now rewrite IH]. }
  rewrite !main_serve, Hshape, (lines_single _ Hline), (lines_single _ Hl).
  cbn [serve]. unfold iteration.
  replace (strip ((before ++ body ++ after) ++ nl)) with (strip (body ++ nl));
    [reflexivity|].
  rewrite <- Hshape.
  rewrite (strip_pad before body (after ++ nl) Hb).
  - exact (strip_pad EmptyString body nl eq_refl eq_refl).
  - clear -Ha. induction after as [|c after IH]; cbn in *; [reflexivity|].
    apply andb_prop in Ha as [-> Ha]. auto.
Qed.

End WithWorld.
End Stream.

(* ================================================================== *)
(** ** The edge cases on the sample traffic *)

Module EdgeRuns.
Import Py Eff Server Props SampleRuntime Transcript.

(** X1 at a method the server does not know and at a request without
    method. *)
Lemma unknown_method_witness :
  handle_jsonrpc (rt := sample) (net := unreachable)
    (JObj [ ("jsonrpc", JStr "2.0"); ("id", JInt 7); ("method", JStr "ping") ]) [] =
    (Returned (JObj [ ("jsonrpc", JStr "2.0"); ("id", JInt 7);
                      ("error", JObj [ ("code", JInt (-32601));
                                       ("message", JStr "method not found") ]) ]), [])
  /\ handle_jsonrpc (rt := sample) (net := unreachable) (JObj [ ("id", JInt 8) ]) [] =
    (Returned (JObj [ ("jsonrpc", JStr "2.0"); ("id", JInt 8);
                      ("error", JObj [ ("code", JInt (-32601));
                                       ("message", JStr "method not found") ]) ]), []).
Proof.
  split.
  - apply (Edges.unknown_method (rt := sample) (net := unreachable)
             [ ("jsonrpc", JStr "2.0"); ("id", JInt 7); ("method", JStr "ping") ] []);
      discriminate.
  - apply (Edges.unknown_method (rt := sample) (net := unreachable) [ ("id", JInt 8) ] []);
      discriminate.
Defined.

(** X2 at null and at a string. *)
Lemma non_object_request_raises_witness :
  handle_jsonrpc (rt := sample) (net := unreachable) JNull [] =
    (Raised (AttributeError "NoneType" "get"), [])
  /\ handle_jsonrpc (rt := sample) (net := unreachable) (JStr "initialize") [] =
    (Raised (AttributeError "str" "get"), []).
Proof.
  split.
  - apply (Edges.non_object_request_raises (rt := sample) (net := unreachable) JNull []).
    reflexivity.
  - apply (Edges.non_object_request_raises (rt := sample) (net := unreachable)
             (JStr "initialize") []).
    reflexivity.
Defined.

(** X3 at [params] a list. *)
Lemma malformed_params_witness :
  handle_jsonrpc (rt := sample) (net := unreachable)
    (JObj [ ("method", JStr "tools/call"); ("params", JArr [JStr "echoserver"]);
            ("id", JInt 9) ]) [] =
  (Returned (JObj [ ("jsonrpc", JStr "2.0"); ("id", JInt 9);
                    ("error", JObj [ ("code", JInt (-32603));
                                     ("message", JStr "'list' object has no attribute 'get'") ]) ]), []).
Proof.
  apply (Edges.malformed_params (rt := sample) (net := unreachable)
           [ ("method", JStr "tools/call"); ("params", JArr [JStr "echoserver"]);
             ("id", JInt 9) ]
           (JArr [JStr "echoserver"]) []); reflexivity.
Defined.

(** X4 at a lookup call without [arguments], against a service that would
    answer. *)
Lemma lookup_malformed_arguments_witness :
  handle_jsonrpc (rt := sample) (net := answering 200 (dq "{'followers': 42}"))
    (JObj (call (JInt 23) [ ("name", JStr "chesscomProfileFollowers") ])) [] =
  (Returned (JObj [ ("jsonrpc", JStr "2.0"); ("id", JInt 23);
                    ("error", JObj [ ("code", JInt (-32603));
                                     ("message", JStr "'NoneType' object has no attribute 'get'") ]) ]), []).
Proof.
  apply (Edges.lookup_malformed_arguments (rt := sample)
           (net := answering 200 (dq "{'followers': 42}"))
           (call (JInt 23) [ ("name", JStr "chesscomProfileFollowers") ])
           [ ("name", JStr "chesscomProfileFollowers") ] []); reflexivity.
Defined.

(** X6 at a user name that is a path with a query. *)
Lemma lookup_url_verbatim_witness :
  snd (handle_jsonrpc (rt := sample) (net := unreachable)
         (JObj (lookup_request "../club/x?y=1 z")) []) =
  [ profile_get "../club/x?y=1 z" ].
Proof.
  apply (Edges.lookup_url_verbatim (rt := sample) (net := unreachable)
           (lookup_request "../club/x?y=1 z")
           [ ("name", JStr "chesscomProfileFollowers");
             ("arguments", JObj [ ("username", JStr "../club/x?y=1 z") ]) ]
           [ ("username", JStr "../club/x?y=1 z") ] "../club/x?y=1 z" []); reflexivity.
Defined.

(** X7 at a service answering with a JSON list. *)
Lemma lookup_unsubscriptable_data_witness :
  exists message,
    fst (handle_jsonrpc (rt := sample) (net := answering 200 "[1]")
           (JObj (lookup_request "alice")) []) =
    Returned (JObj [ ("jsonrpc", JStr "2.0"); ("id", JInt 23);
                     ("error", JObj [ ("code", JInt (-32603)); ("message", JStr message) ]) ]).
Proof.
  apply (Edges.lookup_unsubscriptable_data (rt := sample) (net := answering 200 "[1]")
           (lookup_request "alice")
           [ ("name", JStr "chesscomProfileFollowers");
             ("arguments", JObj [ ("username", JStr "alice") ]) ]
           [] (profile_get "alice")
           {| status_code := 200;
              status_error := LibraryError "HTTPStatusError" "status 200";
              json_body := Returned (JArr [JInt 1]) |}
           (JArr [JInt 1])); reflexivity.
Defined.

(** X10 at the first entry of the registry, called without arguments. *)
Lemma advertised_tools_are_callable_witness :
  exists response,
    fst (handle_jsonrpc (rt := sample) (net := unreachable)
           (JObj (call (JInt 23) [ ("name", JStr "echoserver") ])) []) = Returned response
    /\ (error_code response = None
        \/ error_code response = Some (-1)
        \/ error_code response = Some (-32603)).
Proof.
  apply (Edges.advertised_tools_are_callable (rt := sample) (net := unreachable)
           (call (JInt 23) [ ("name", JStr "echoserver") ])
           [ ("name", JStr "echoserver") ]
           match lookup tools "echoserver" with Some (JObj spec) => spec | _ => [] end
           "echoserver" []); try reflexivity.
  left. reflexivity.
Defined.

(** X12 at an input whose first line is a JSON list. *)
Lemma session_parse_error_lines_witness :
  exists stdout sent,
    main (rt := sample) (net := unreachable) ("[1]" ++ nl ++ tools_list_line ++ nl) =
    Some (stdout, sent)
    /\ nth_error stdout 0 = Some parse_error_text.
Proof.
  apply (Stream.session_parse_error_lines (rt := sample) (net := unreachable)
           ("[1]" ++ nl ++ tools_list_line ++ nl) 0 ("[1]" ++ nl)).
  - reflexivity.
  - intros fields H. discriminate H.
Defined.


(** X14 at the line [oops], then followed by the recorded [tools/list]
    line. *)
Lemma session_prefix_stable_witness :
  exists texts requests,
    main (rt := sample) (net := unreachable) ("oops" ++ nl ++ tools_list_line) =
    Some (([parse_error_text] ++ texts)%list, ([] ++ requests)%list).
Proof.
  apply (Stream.session_prefix_stable (rt := sample) (net := unreachable)
           "oops" tools_list_line [parse_error_text] []).
  reflexivity.
Defined.

(** X15 at the recorded [tools/list] line, indented and ended by CRLF. *)
Lemma session_strips_lines_witness :
  main (rt := sample) (net := unreachable)
    ("  " ++ tools_list_line ++ String "013"%char EmptyString ++ nl) =
  main (rt := sample) (net := unreachable) (tools_list_line ++ nl).
Proof.
  apply (Stream.session_strips_lines (rt := sample) (net := unreachable)
           "  " tools_list_line (String "013"%char EmptyString)); reflexivity.
Defined.

End EdgeRuns.
